(** * Eligibility matching engine of the scholarship portal

    A shallow embedding of the eligibility code of [server.js]
    ([calculateAge], [parseIncome], the [/api/check-eligibility] handler)
    and of its copy in [routes/eligibility.js], together with the
    properties the specification states about them.

    ** Conventions

    - A JavaScript number is an IEEE-754 binary64 value.  [Num.number]
      carries the exact rational a finite double denotes, plus [NaN] and
      the two infinities; every arithmetic result is rounded to the nearest
      double (ties to even) by [Num.toDouble], with overflow to an infinity
      and underflow through the subnormals.  The sign of zero is not
      tracked: no operation used by the code below distinguishes the two
      zeros.
    - A JavaScript string is its sequence of UTF-16 code units
      ([JSString]); [js] embeds an ASCII literal.
    - [undefined]/[null] in an optional field is [None].
    - The system clock and the database are explicit inputs. *)

From Stdlib Require Import ZArith NArith QArith Qround Qabs Qpower.
From Stdlib Require Import Bool List String Ascii Lia.
From Stdlib Require Import Permutation Sorted.
Import ListNotations.

Set Implicit Arguments.

(* ================================================================== *)
(** ** JavaScript numbers *)

Module Num.

Inductive number : Type :=
| Fin (q : Q)
| NaN
| PInf
| NInf.

Definition pow2 (z : Z) : Q := Qpower 2 z.

(** Nearest integer, ties to the even one. *)
Definition round_half_even (q : Q) : Z :=
  let f := Qfloor q in
  match Qcompare (q - inject_Z f) (1 # 2) with
  | Lt => f
  | Gt => (f + 1)%Z
  | Eq => if Z.even f then f else (f + 1)%Z
  end.

(** For [q > 0], the [e] with [2^e <= q < 2^(e+1)]. *)
Definition binade (q : Q) : Z :=
  let e := (Z.log2 (Qnum q) - Z.log2 (Zpos (Qden q)))%Z in
  if Qle_bool (pow2 e) q then e else (e - 1)%Z.

(** Rounding of an exact real result to binary64: 53 significant bits,
    least exponent -1074, overflow from 2^1024. *)
Definition toDouble (q : Q) : number :=
  if Qeq_bool q 0 then Fin 0
  else
    let a := Qabs q in
    let E := Z.max (binade a - 52) (-1074) in
    let m := round_half_even (a / pow2 E) in
    let v := (inject_Z m * pow2 E)%Q in
    if Qle_bool (pow2 1024) v
    then (if Qle_bool 0 q then PInf else NInf)
    else Fin (Qred (if Qle_bool 0 q then v else - v)).

(** A numeric literal or an integer-valued result. *)
Definition ofZ (z : Z) : number := toDouble (inject_Z z).

Definition neg (x : number) : number :=
  match x with
  | Fin q => Fin (Qred (- q))
  | NaN => NaN
  | PInf => NInf
  | NInf => PInf
  end.

Definition add (x y : number) : number :=
  match x, y with
  | NaN, _ | _, NaN => NaN
  | PInf, NInf | NInf, PInf => NaN
  | PInf, _ | _, PInf => PInf
  | NInf, _ | _, NInf => NInf
  | Fin a, Fin b => toDouble (a + b)
  end.

Definition sub (x y : number) : number := add x (neg y).

(** Sign of an infinite product or quotient: [true] is positive. *)
Definition signed_inf (positive : bool) : number :=
  if positive then PInf else NInf.

Definition nonneg (x : number) : bool :=
  match x with
  | Fin q => Qle_bool 0 q
  | PInf => true
  | _ => false
  end.

Definition is_zero (x : number) : bool :=
  match x with
  | Fin q => Qeq_bool q 0
  | _ => false
  end.

Definition mul (x y : number) : number :=
  match x, y with
  | NaN, _ | _, NaN => NaN
  | Fin a, Fin b => toDouble (a * b)
  | _, _ =>
      if is_zero x || is_zero y then NaN
      else signed_inf (Bool.eqb (nonneg x) (nonneg y))
  end.

Definition div (x y : number) : number :=
  match x, y with
  | NaN, _ | _, NaN => NaN
  | Fin a, Fin b =>
      if Qeq_bool b 0
      then (if Qeq_bool a 0 then NaN else signed_inf (Qle_bool 0 a))
      else toDouble (a / b)
  | Fin _, _ => Fin 0
  | _, Fin _ => signed_inf (Bool.eqb (nonneg x) (nonneg y))
  | _, _ => NaN
  end.

(** [x < y]; every comparison with [NaN] is false. *)
Definition lt (x y : number) : bool :=
  match x, y with
  | NaN, _ | _, NaN => false
  | Fin a, Fin b => negb (Qle_bool b a)
  | NInf, NInf | PInf, _ | _, NInf => false
  | NInf, _ | _, PInf => true
  end.

Definition gt (x y : number) : bool := lt y x.

(** ToBoolean on a number: [NaN] and zero are falsy. *)
Definition truthy (x : number) : bool :=
  match x with
  | NaN => false
  | Fin q => negb (Qeq_bool q 0)
  | _ => true
  end.

(** [x || d] on numbers. *)
Definition or_else (x d : number) : number := if truthy x then x else d.

(** [Math.round]: nearest integer, ties towards +Infinity. *)
Definition round (x : number) : number :=
  match x with
  | Fin q => Fin (inject_Z (Qfloor (q + (1 # 2))))
  | _ => x
  end.

Definition isFinite (x : number) : bool :=
  match x with
  | Fin _ => true
  | _ => false
  end.

(** [x === y] on numbers. *)
Definition strict_eq (x y : number) : bool :=
  match x, y with
  | Fin a, Fin b => Qeq_bool a b
  | PInf, PInf | NInf, NInf => true
  | _, _ => false
  end.

End Num.

Import Num.

(* ================================================================== *)
(** ** JavaScript strings *)

Definition JSString : Type := list N.

Definition js (s : string) : JSString :=
  List.map N_of_ascii (list_ascii_of_string s).

(** White space and line terminators: the class [\s] of regular
    expressions, which is also what [parseFloat] skips. *)
Definition is_space (c : N) : bool :=
  ((9 <=? c) && (c <=? 13) || (c =? 32) || (c =? 160) || (c =? 5760)
   || (8192 <=? c) && (c <=? 8202) || (c =? 8232) || (c =? 8233)
   || (c =? 8239) || (c =? 8287) || (c =? 12288) || (c =? 65279))%N.

Definition is_digit (c : N) : bool := ((48 <=? c) && (c <=? 57))%N.

Definition rupee : N := 8377.
Definition comma : N := 44.
Definition hyphen : N := 45.
Definition plus : N := 43.
Definition dot : N := 46.

Fixpoint starts_with (p s : JSString) : bool :=
  match p, s with
  | [], _ => true
  | _ :: _, [] => false
  | a :: p', b :: s' => (a =? b)%N && starts_with p' s'
  end.

(** [String.prototype.includes]. *)
Fixpoint includes (s needle : JSString) : bool :=
  starts_with needle s ||
  match s with
  | [] => false
  | _ :: s' => includes s' needle
  end.

(** [String.prototype.toLowerCase], as far as a search for an ASCII word
    can observe it: the ASCII capitals, and the Kelvin sign U+212A whose
    lower case is the letter k. *)
Definition lower_unit (c : N) : N :=
  if ((65 <=? c) && (c <=? 90))%N then (c + 32)%N
  else if (c =? 8490)%N then 107%N
  else c.

Definition toLowerCase (s : JSString) : JSString := List.map lower_unit s.

(** [s.split('-')] for a one-unit separator. *)
Fixpoint split (sep : N) (s : JSString) : list JSString :=
  match s with
  | [] => [[]]
  | c :: s' =>
      if (c =? sep)%N then [] :: split sep s'
      else match split sep s' with
           | [] => [[c]]
           | w :: ws => (c :: w) :: ws
           end
  end.

Fixpoint span_digits (s : JSString) : JSString * JSString :=
  match s with
  | c :: s' =>
      if is_digit c
      then let (ds, r) := span_digits s' in (c :: ds, r)
      else ([], s)
  | [] => ([], [])
  end.

Definition digits_value (ds : JSString) : Z :=
  fold_left (fun acc d => (10 * acc + Z.of_N (d - 48))%Z) ds 0%Z.

Fixpoint skip_space (s : JSString) : JSString :=
  match s with
  | c :: s' => if is_space c then skip_space s' else s
  | [] => []
  end.

(** The exponent part [e[+-]ddd] of a decimal literal, 0 when there is
    none (a dangling [e] is not part of the literal). *)
Definition exponent_part (s : JSString) : Z :=
  match s with
  | e :: r =>
      if ((e =? 101) || (e =? 69))%N then
        match r with
        | sg :: r' =>
            if (sg =? plus)%N then
              match span_digits r' with
              | ([], _) => 0 | (ds, _) => digits_value ds end
            else if (sg =? hyphen)%N then
              match span_digits r' with
              | ([], _) => 0 | (ds, _) => - digits_value ds end
            else
              match span_digits r with
              | ([], _) => 0 | (ds, _) => digits_value ds end
        | [] => 0
        end
      else 0
  | [] => 0
  end%Z.

(** The longest prefix that is an unsigned decimal literal
    ([Infinity], [ddd], [ddd.], [ddd.ddd], [.ddd], each with an optional
    exponent), as a number; [NaN] when there is none. *)
Definition unsigned_literal (s : JSString) : number :=
  if starts_with (js "Infinity") s then PInf
  else
    let (ip, r1) := span_digits s in
    let '(fp, r2, has_dot) :=
      match r1 with
      | c :: r =>
          if (c =? dot)%N
          then let (fp, r2) := span_digits r in (fp, r2, true)
          else ([], r1, false)
      | [] => ([], r1, false)
      end in
    match ip, fp with
    | [], [] => NaN
    | _, _ =>
        let mant := digits_value (ip ++ fp) in
        let ex := (exponent_part r2 - Z.of_nat (List.length fp))%Z in
        toDouble (inject_Z mant * Qpower 10 ex)
    end.

(** The global [parseFloat] on a string. *)
Definition parseFloat_string (s : JSString) : number :=
  match skip_space s with
  | c :: r =>
      if (c =? plus)%N then unsigned_literal r
      else if (c =? hyphen)%N then neg (unsigned_literal r)
      else unsigned_literal (c :: r)
  | [] => NaN
  end.

(** [parseFloat] on a value that is a string or [undefined]: the text
    "undefined" is no literal. *)
Definition parseFloat (v : option JSString) : number :=
  match v with
  | Some s => parseFloat_string s
  | None => NaN
  end.

(* ================================================================== *)
(** ** Utility functions of [server.js] *)

(** A valid [Date] object: its time value in milliseconds and the
    calendar fields its getters report in the server's local time
    ([getMonth] counts from 0, [getDate] from 1). *)
Record Date : Type := mkDate {
  getTime : Z;
  getFullYear : Z;
  getMonth : Z;
  getDate : Z
}.

(** [s.replace(/[₹,\s]/g, '')]. *)
Definition strip_currency (s : JSString) : JSString :=
  filter (fun c => negb ((c =? rupee)%N || (c =? comma)%N || is_space c)) s.

(** [s.replace(/[^\d.]/g, '')]. *)
Definition keep_digits_and_dots (s : JSString) : JSString :=
  filter (fun c => is_digit c || (c =? dot)%N) s.

(** [parseIncome(incomeString)]. *)
Definition parseIncome (incomeString : option JSString) : number :=
  match incomeString with
  | None | Some [] => ofZ 0
  | Some s =>
      let cleanIncome := strip_currency s in
      if includes cleanIncome (js "-") then
        let range := split hyphen cleanIncome in
        let lower := parseFloat (nth_error range 0) in
        let upper := parseFloat (nth_error range 1) in
        div (add lower upper) (ofZ 2)
      else if includes (toLowerCase cleanIncome) (js "lakh") then
        mul (parseFloat (Some (keep_digits_and_dots cleanIncome)))
            (ofZ 100000)
      else if includes (toLowerCase cleanIncome) (js "crore") then
        mul (parseFloat (Some (keep_digits_and_dots cleanIncome)))
            (ofZ 10000000)
      else or_else (parseFloat (Some cleanIncome)) (ofZ 0)
  end.

(* ================================================================== *)
(** ** Documents *)

Record Criteria : Type := mkCriteria {
  minCgpa : number;
  maxCgpa : number;
  requiredEducation : list JSString;
  requiredFields : list JSString;
  maxFamilyIncome : number;
  minFamilyIncome : number;
  allowedGenders : list JSString;
  allowedCategories : list JSString;
  minAge : number;
  maxAge : number;
  allowedStates : list JSString;
  allowedCities : list JSString
}.

Record ContactInfo : Type := mkContactInfo {
  contact_email : option JSString;
  contact_phone : option JSString;
  contact_website : option JSString
}.

Record Scholarship : Type := mkScholarship {
  _id : N;
  title : JSString;
  description : option JSString;
  provider : JSString;
  amount : JSString;
  eligibilityCriteria : Criteria;
  applicationDeadline : option Date;
  documentsRequired : list JSString;
  contactInfo : ContactInfo;
  isActive : bool
}.

Record Profile : Type := mkProfile {
  fullName : option JSString;
  dateOfBirth : option Date;
  gender : option JSString;
  category : option JSString;
  currentEducation : option JSString;
  fieldOfStudy : option JSString;
  cgpa : option JSString;
  familyIncome : option JSString;
  isProfileComplete : bool
}.

Record User : Type := mkUser {
  name : JSString;
  email : JSString;
  profile : option Profile
}.

Fixpoint jsstring_eqb (a b : JSString) : bool :=
  match a, b with
  | [], [] => true
  | x :: a', y :: b' => (x =? y)%N && jsstring_eqb a' b'
  | _, _ => false
  end.

(** [Array.prototype.includes] on an array of strings; the searched value
    may be [undefined], which no such array holds. *)
Definition array_includes (xs : list JSString) (v : option JSString) : bool :=
  match v with
  | Some s => existsb (jsstring_eqb s) xs
  | None => false
  end.

(** [xs.length > 0]. *)
Definition nonempty (A : Type) (xs : list A) : bool :=
  match xs with
  | [] => false
  | _ :: _ => true
  end.

(* ================================================================== *)
(** ** Eligibility checks *)

(** The [required] text of a check, before formatting. *)
Inductive Required : Type :=
| NumberRange (lo hi : number)        (* `${lo} - ${hi}` *)
| OneOf (allowed : list JSString)     (* allowed.join(', ') *)
| RupeeRange (lo hi : number)         (* `₹${lo.toLocaleString()} - ₹${hi.toLocaleString()}` *)
| YearRange (lo hi : number).         (* `${lo} - ${hi} years` *)

(** The [userValue] of a check, before formatting. *)
Inductive UserValue : Type :=
| PlainNumber (x : number)
| Text (s : option JSString)
| Rupees (x : number)                 (* `₹${x.toLocaleString()}` *)
| Years (age : Z).                    (* `${age} years` *)

Record EligibilityCheck : Type := mkCheck {
  criterion : string;
  required : Required;
  userValue : UserValue;
  passed : bool
}.

(** The two variables the loop body updates: [isEligible] and [checks]. *)
Record Verdict : Type := mkVerdict {
  v_isEligible : bool;
  v_checks : list EligibilityCheck
}.

(** [checks.push(c)]. *)
Definition push (c : EligibilityCheck) (v : Verdict) : Verdict :=
  mkVerdict (v_isEligible v) (v_checks v ++ [c]).

(** [isEligible = false; checks.push(c)]. *)
Definition reject (c : EligibilityCheck) (v : Verdict) : Verdict :=
  mkVerdict false (v_checks v ++ [c]).

Section Evaluator.

Variable profile_ : Profile.
Variable userAge : Z.
Variable userIncome : number.
Variable userCgpa : number.
Variable criteria : Criteria.

Definition check_cgpa (v : Verdict) : Verdict :=
  let req := NumberRange (minCgpa criteria) (maxCgpa criteria) in
  if lt userCgpa (minCgpa criteria) || gt userCgpa (maxCgpa criteria)
  then reject (mkCheck "CGPA" req (PlainNumber userCgpa) false) v
  else push (mkCheck "CGPA" req (PlainNumber userCgpa) true) v.

Definition check_education (v : Verdict) : Verdict :=
  let req := OneOf (requiredEducation criteria) in
  let val := Text (currentEducation profile_) in
  if nonempty (requiredEducation criteria)
     && negb (array_includes (requiredEducation criteria)
                             (currentEducation profile_))
  then reject (mkCheck "Education Level" req val false) v
  else if nonempty (requiredEducation criteria)
  then push (mkCheck "Education Level" req val true) v
  else v.

Definition check_field (v : Verdict) : Verdict :=
  let req := OneOf (requiredFields criteria) in
  let val := Text (fieldOfStudy profile_) in
  if nonempty (requiredFields criteria)
     && negb (array_includes (requiredFields criteria)
                             (fieldOfStudy profile_))
  then reject (mkCheck "Field of Study" req val false) v
  else if nonempty (requiredFields criteria)
  then push (mkCheck "Field of Study" req val true) v
  else v.

Definition check_income (v : Verdict) : Verdict :=
  let req := RupeeRange (minFamilyIncome criteria)
                        (maxFamilyIncome criteria) in
  if gt userIncome (maxFamilyIncome criteria)
     || lt userIncome (minFamilyIncome criteria)
  then reject (mkCheck "Family Income" req (Rupees userIncome) false) v
  else push (mkCheck "Family Income" req (Rupees userIncome) true) v.

Definition check_gender (v : Verdict) : Verdict :=
  let req := OneOf (allowedGenders criteria) in
  let val := Text (gender profile_) in
  if nonempty (allowedGenders criteria)
     && negb (array_includes (allowedGenders criteria) (Some (js "All")))
     && negb (array_includes (allowedGenders criteria) (gender profile_))
  then reject (mkCheck "Gender" req val false) v
  else if nonempty (allowedGenders criteria)
          && negb (array_includes (allowedGenders criteria)
                                  (Some (js "All")))
  then push (mkCheck "Gender" req val true) v
  else v.

Definition check_category (v : Verdict) : Verdict :=
  let req := OneOf (allowedCategories criteria) in
  let val := Text (category profile_) in
  if nonempty (allowedCategories criteria)
     && negb (array_includes (allowedCategories criteria)
                             (category profile_))
  then reject (mkCheck "Category" req val false) v
  else if nonempty (allowedCategories criteria)
  then push (mkCheck "Category" req val true) v
  else v.

Definition check_age (v : Verdict) : Verdict :=
  let req := YearRange (minAge criteria) (maxAge criteria) in
  if lt (ofZ userAge) (minAge criteria) || gt (ofZ userAge) (maxAge criteria)
  then reject (mkCheck "Age" req (Years userAge) false) v
  else push (mkCheck "Age" req (Years userAge) true) v.

(** The seven checks in the order of the loop body, from
    [isEligible = true; checks = []]. *)
Definition run_checks : Verdict :=
  check_age
    (check_category
      (check_gender
        (check_income
          (check_field
            (check_education
              (check_cgpa (mkVerdict true []))))))).

End Evaluator.

(* ================================================================== *)
(** ** Evaluation of one scholarship *)

(** The [scholarship] object copied into each result. *)
Record Summary : Type := mkSummary {
  sum_id : N;
  sum_title : JSString;
  sum_description : option JSString;
  sum_provider : JSString;
  sum_amount : JSString;
  sum_applicationDeadline : option Date;
  sum_documentsRequired : list JSString;
  sum_contactInfo : ContactInfo
}.

Definition summary (s : Scholarship) : Summary :=
  mkSummary (_id s) (title s) (description s) (provider s) (amount s)
            (applicationDeadline s) (documentsRequired s) (contactInfo s).

Record EligibilityResult : Type := mkResult {
  scholarship : Summary;
  isEligible : bool;
  deadlineStatus : string;
  eligibilityChecks : list EligibilityCheck;
  matchPercentage : number
}.

(** [Math.round((checks.filter(c => c.passed).length / checks.length) * 100)]. *)
Definition match_percentage (checks : list EligibilityCheck) : number :=
  round (mul (div (ofZ (Z.of_nat (List.length (filter passed checks))))
                  (ofZ (Z.of_nat (List.length checks))))
             (ofZ 100)).

(** [scholarship.applicationDeadline && scholarship.applicationDeadline < now]. *)
Definition deadline_passed (s : Scholarship) (now : Date) : bool :=
  match applicationDeadline s with
  | Some d => (getTime d <? getTime now)%Z
  | None => false
  end.

(** One iteration of the loop over the scholarships; [now] is the value
    of the [new Date()] of that iteration. *)
Definition evaluate (p : Profile) (userAge : Z) (userIncome userCgpa : number)
    (now : Date) (s : Scholarship) : EligibilityResult :=
  let v := run_checks p userAge userIncome userCgpa (eligibilityCriteria s) in
  let expired := deadline_passed s now in
  mkResult (summary s)
           (if expired then false else v_isEligible v)
           (if expired then "Expired" else "Active")
           (v_checks v)
           (match_percentage (v_checks v)).

(* ================================================================== *)
(** ** Ranking *)

(** [Array.prototype.sort(comparefn)].  The sort is stable, and for a
    consistent comparator every conforming engine returns the same array;
    the insertion sort below is that array.  A comparator result that is
    [NaN] counts as 0. *)
Section Sort.

Variable A : Type.
Variable comparefn : A -> A -> number.

(** [comparefn(x, y) > 0]: [x] goes after [y]. *)
Definition goes_after (x y : A) : bool := lt (ofZ 0) (comparefn x y).

Fixpoint insert (x : A) (l : list A) : list A :=
  match l with
  | [] => [x]
  | y :: l' => if goes_after x y then y :: insert x l' else x :: l
  end.

Fixpoint sort (l : list A) : list A :=
  match l with
  | [] => []
  | x :: l' => insert x (sort l')
  end.

End Sort.

(** The comparator of [eligibilityResults.sort]. *)
Definition compare_results (a b : EligibilityResult) : number :=
  if isEligible a && negb (isEligible b) then ofZ (-1)
  else if negb (isEligible a) && isEligible b then ofZ 1
  else sub (matchPercentage b) (matchPercentage a).

(* ================================================================== *)
(** ** The request handler *)

(** The [userProfile] object of the response. *)
Record Snapshot : Type := mkSnapshot {
  snap_name : JSString;
  snap_cgpa : number;
  snap_education : option JSString;
  snap_field : option JSString;
  snap_income : number;                 (* `₹${userIncome.toLocaleString()}` *)
  snap_age : Z;
  snap_gender : option JSString;
  snap_category : option JSString
}.

Inductive Body : Type :=
| ErrorBody (error : string)
| IncompleteBody (success : bool) (message : string)
                 (eligibleScholarships : list EligibilityResult)
                 (incompleteProfile : bool)
| RankedBody (success : bool) (totalScholarships : nat)
             (eligibleScholarships : nat)
             (results : list EligibilityResult)
             (userProfile : Snapshot).

Record Response : Type := mkResponse {
  status : Z;
  body : Body
}.

(** Queries sent to the database. *)
Inductive Query : Type :=
| UserFindOne (email : JSString)
| ScholarshipFindActive.

(** What a request changes outside itself: how often the clock was read
    and which queries were sent. *)
Record World : Type := mkWorld {
  ticks : nat;
  queries : list Query
}.

Definition IO (A : Type) : Type := World -> A * World.

Definition ret (A : Type) (a : A) : IO A := fun w => (a, w).

Definition bind (A B : Type) (m : IO A) (k : A -> IO B) : IO B :=
  fun w => let (a, w') := m w in k a w'.

Notation "x <- m ;; k" := (bind m (fun x => k))
  (at level 61, m at next level, right associativity).

Fixpoint for_each (A B : Type) (f : A -> IO B) (l : list A) : IO (list B) :=
  match l with
  | [] => ret []
  | a :: l' => b <- f a ;; bs <- for_each f l' ;; ret (b :: bs)
  end.

Section Server.

(** [clock n] is the value of the [n]-th [new Date()] (from 0). *)
Variable clock : nat -> Date.
(** The two collections. *)
Variable users : list User.
Variable scholarships : list Scholarship.

(** [new Date()]. *)
Definition newDate : IO Date :=
  fun w => (clock (ticks w), mkWorld (S (ticks w)) (queries w)).

(** [await User.findOne({ email })]. *)
Definition User_findOne (e : JSString) : IO (option User) :=
  fun w => (find (fun u => jsstring_eqb (email u) e) users,
            mkWorld (ticks w) (queries w ++ [UserFindOne e])).

(** [await Scholarship.find({ isActive: true })]. *)
Definition Scholarship_find_active : IO (list Scholarship) :=
  fun w => (filter isActive scholarships,
            mkWorld (ticks w) (queries w ++ [ScholarshipFindActive])).

(** [calculateAge(dateOfBirth)]. *)
Definition calculateAge (dateOfBirth : option Date) : IO Z :=
  match dateOfBirth with
  | None => ret 0%Z
  | Some birthDate =>
      today <- newDate ;;
      let age := (getFullYear today - getFullYear birthDate)%Z in
      let monthDiff := (getMonth today - getMonth birthDate)%Z in
      if ((monthDiff <? 0)
          || ((monthDiff =? 0) && (getDate today <? getDate birthDate)))%Z
      then ret (age - 1)%Z
      else ret age
  end.

(** [profile.fullName || user.name]. *)
Definition display_name (u : User) (p : Profile) : JSString :=
  match fullName p with
  | Some (c :: n) => c :: n
  | _ => name u
  end.

Definition incomplete_response : Response :=
  mkResponse 200
    (IncompleteBody true "Please complete your profile to check eligibility"
                    [] true).

(** [app.post('/api/check-eligibility', ...)] of [server.js]; [req_email]
    is [req.body.email].  The copy in [routes/eligibility.js] differs only
    in that its two error bodies also carry [success: false], and in
    writing the profile test as
    [!user.profile || !user.profile.isProfileComplete].  The [catch] branch
    (status 500) is left out: no operation below throws on documents of
    the schema. *)
Definition check_eligibility (req_email : option JSString) : IO Response :=
  match req_email with
  | None | Some [] => ret (mkResponse 400 (ErrorBody "Email is required"))
  | Some e =>
      found <- User_findOne e ;;
      match found with
      | None => ret (mkResponse 404 (ErrorBody "User not found"))
      | Some user =>
          match profile user with
          | None => ret incomplete_response
          | Some p =>
              if negb (isProfileComplete p) then ret incomplete_response
              else
                userAge <- calculateAge (dateOfBirth p) ;;
                let userIncome := parseIncome (familyIncome p) in
                let userCgpa := or_else (parseFloat (cgpa p)) (ofZ 0) in
                all <- Scholarship_find_active ;;
                eligibilityResults <-
                  for_each (fun s =>
                              now <- newDate ;;
                              ret (evaluate p userAge userIncome userCgpa
                                            now s))
                           all ;;
                let sorted := sort compare_results eligibilityResults in
                ret (mkResponse 200
                       (RankedBody true
                          (List.length all)
                          (List.length (filter isEligible sorted))
                          sorted
                          (mkSnapshot (display_name user p) userCgpa
                             (currentEducation p) (fieldOfStudy p)
                             userIncome userAge (gender p) (category p))))
          end
      end
  end.

End Server.

(** The world before a request. *)
Definition fresh : World := mkWorld 0 [].

(* ================================================================== *)
(** ** Profile completion ([/api/profile/update]) *)

(** [x >= y] on numbers. *)
Definition geq (x y : number) : bool :=
  match x, y with
  | NaN, _ | _, NaN => false
  | Fin a, Fin b => Qle_bool b a
  | PInf, _ | _, NInf => true
  | _, _ => false
  end.

(** [String.prototype.trim]. *)
Definition trim (s : JSString) : JSString :=
  rev (skip_space (rev (skip_space s))).

(** The twelve text fields of [req.body] that count towards completion. *)
Record ProfileForm : Type := mkProfileForm {
  form_fullName : option JSString;
  form_phone : option JSString;
  form_dateOfBirth : option JSString;
  form_gender : option JSString;
  form_category : option JSString;
  form_currentEducation : option JSString;
  form_fieldOfStudy : option JSString;
  form_institution : option JSString;
  form_cgpa : option JSString;
  form_familyIncome : option JSString;
  form_parentOccupation : option JSString;
  form_careerGoals : option JSString
}.

(** The array [requiredFields] of the handler. *)
Definition requiredFields_of (f : ProfileForm) : list (option JSString) :=
  [form_fullName f; form_phone f; form_dateOfBirth f; form_gender f;
   form_category f; form_currentEducation f; form_fieldOfStudy f;
   form_institution f; form_cgpa f; form_familyIncome f;
   form_parentOccupation f; form_careerGoals f].

(** [field && field.trim() !== ''] for a field that is a string or
    absent. *)
Definition is_filled (field : option JSString) : bool :=
  match field with
  | Some (c :: s) => negb (jsstring_eqb (trim (c :: s)) [])
  | _ => false
  end.

(** [requiredFields.filter(field => field && field.trim() !== '').length]. *)
Definition filledFields (f : ProfileForm) : nat :=
  List.length (filter is_filled (requiredFields_of f)).

(** [Math.round((filledFields / requiredFields.length) * 100)]. *)
Definition completionPercentage (f : ProfileForm) : number :=
  round (mul (div (ofZ (Z.of_nat (filledFields f)))
                  (ofZ (Z.of_nat (List.length (requiredFields_of f)))))
             (ofZ 100)).

(** The stored flag: [completionPercentage >= 70]. *)
Definition form_isProfileComplete (f : ProfileForm) : bool :=
  geq (completionPercentage f) (ofZ 70).

(* ================================================================== *)
(** ** Registration ([/register]) *)

(** A user document: the part the eligibility handler reads, and the
    rest. *)
Record Account : Type := mkAccount {
  account_user : User;
  mobile : JSString;
  password : JSString;
  role : JSString
}.

(** The four fields of [req.body], each a string or absent. *)
Record RegisterBody : Type := mkRegisterBody {
  reg_name : option JSString;
  reg_email : option JSString;
  reg_mobile : option JSString;
  reg_password : option JSString
}.

Inductive Reply : Type :=
| ReplyError (error : string)
| ReplyMessage (message : string).

Record Answer : Type := mkAnswer {
  answer_status : Z;
  answer_body : Reply
}.

(** A string that is truthy, that is present and not empty. *)
Definition given (v : option JSString) : option JSString :=
  match v with
  | Some (c :: s) => Some (c :: s)
  | _ => None
  end.

(** The [profile] of a document made by [new User({...})] without one:
    the defaults of the schema. *)
Definition new_profile : Profile :=
  mkProfile None None None None None None None None false.

(** [app.post('/register', ...)] as a change of the user collection;
    [hashedPassword] is what [bcrypt.hash(password, 10)] returned.  The
    [catch] branch (status 500) is left out. *)
Definition register (accounts : list Account) (hashedPassword : JSString)
    (b : RegisterBody) : Answer * list Account :=
  match given (reg_name b), given (reg_email b), given (reg_mobile b),
        given (reg_password b) with
  | Some n, Some e, Some m, Some _ =>
      match find (fun a => jsstring_eqb (email (account_user a)) e)
                 accounts with
      | Some _ =>
          (mkAnswer 409 (ReplyError "Email already registered"), accounts)
      | None =>
          (mkAnswer 201 (ReplyMessage "Registration successful"),
           accounts ++ [mkAccount (mkUser n e (Some new_profile)) m
                                  hashedPassword (js "user")])
      end
  | _, _, _, _ =>
      (mkAnswer 400 (ReplyError "All fields are required"), accounts)
  end.

(* ================================================================== *)
(** ** Feedback ([/api/feedback]) *)

(** [req.body.responses], each answer a string or absent. *)
Record Responses : Type := mkResponses {
  q1 : option JSString;
  q2 : option JSString;
  q3 : option JSString;
  q4 : option JSString;
  suggestions : option JSString
}.

(** A stored feedback document. *)
Record Feedback : Type := mkFeedback {
  fb_email : JSString;
  fb_q1 : JSString;
  fb_q2 : JSString;
  fb_q3 : JSString;
  fb_q4 : JSString;
  fb_suggestions : JSString
}.

Inductive FeedbackReply : Type :=
| FeedbackRequired                        (* "Email and responses are required" *)
| FeedbackMissing (questions : list string)
    (* `Please answer all required questions: ${questions.join(', ')}` *)
| FeedbackNoUser                          (* "User not found" *)
| FeedbackThanks (feedback : Feedback).   (* "Thank you for your feedback!" *)

(** [requiredQuestions.filter(q => !responses[q])]. *)
Definition missingQuestions (r : Responses) : list string :=
  map fst
      (filter (fun qa => match given (snd qa) with
                         | Some _ => false
                         | None => true
                         end)
              [("q1", q1 r); ("q2", q2 r); ("q3", q3 r); ("q4", q4 r)]%string).

(** [responses.suggestions || '']. *)
Definition or_empty (v : option JSString) : JSString :=
  match v with
  | Some s => s
  | None => []
  end.

(** [app.post('/api/feedback', ...)] as a change of the feedback
    collection, with the status of the answer.  The [catch] branch is left
    out. *)
Definition submit_feedback (users : list User) (stored : list Feedback)
    (req_email : option JSString) (responses : option Responses)
    : (Z * FeedbackReply) * list Feedback :=
  match given req_email, responses with
  | Some e, Some r =>
      match missingQuestions r with
      | q :: qs => ((400, FeedbackMissing (q :: qs)), stored)
      | [] =>
          match find (fun u => jsstring_eqb (email u) e) users with
          | None => ((404, FeedbackNoUser), stored)
          | Some _ =>
              let doc := mkFeedback e (or_empty (q1 r)) (or_empty (q2 r))
                           (or_empty (q3 r)) (or_empty (q4 r))
                           (or_empty (suggestions r)) in
              ((200, FeedbackThanks doc), stored ++ [doc])
          end
      end
  | _, _ => ((400, FeedbackRequired), stored)
  end%Z.

(* ================================================================== *)
(** * Vocabulary of the specification *)

(** ** Age *)

(** "The current month/day precedes the birth month/day". *)
Definition birthday_pending (today birthDate : Date) : Prop :=
  (getMonth today < getMonth birthDate
   \/ (getMonth today = getMonth birthDate
       /\ getDate today < getDate birthDate))%Z.

(** ** Check trace *)

(** The seven criteria in the order of the loop body. *)
Definition all_criteria : list string :=
  ["CGPA"; "Education Level"; "Field of Study"; "Family Income";
   "Gender"; "Category"; "Age"]%string.

(** Whether a scholarship constrains a criterion. *)
Definition constrained (c : Criteria) (criterion_name : string) : bool :=
  if String.eqb criterion_name "Education Level"
  then nonempty (requiredEducation c)
  else if String.eqb criterion_name "Field of Study"
  then nonempty (requiredFields c)
  else if String.eqb criterion_name "Gender"
  then nonempty (allowedGenders c)
       && negb (array_includes (allowedGenders c) (Some (js "All")))
  else if String.eqb criterion_name "Category"
  then nonempty (allowedCategories c)
  else true.

(** Whether the user meets a criterion, taken on its own. *)
Definition satisfies (p : Profile) (userAge : Z) (userIncome userCgpa : number)
    (c : Criteria) (criterion_name : string) : bool :=
  if String.eqb criterion_name "CGPA"
  then negb (lt userCgpa (minCgpa c) || gt userCgpa (maxCgpa c))
  else if String.eqb criterion_name "Education Level"
  then array_includes (requiredEducation c) (currentEducation p)
  else if String.eqb criterion_name "Field of Study"
  then array_includes (requiredFields c) (fieldOfStudy p)
  else if String.eqb criterion_name "Family Income"
  then negb (gt userIncome (maxFamilyIncome c)
             || lt userIncome (minFamilyIncome c))
  else if String.eqb criterion_name "Gender"
  then array_includes (allowedGenders c) (gender p)
  else if String.eqb criterion_name "Category"
  then array_includes (allowedCategories c) (category p)
  else negb (lt (ofZ userAge) (minAge c) || gt (ofZ userAge) (maxAge c)).

(** What a check says: which criterion, and whether it passed. *)
Definition outcome (ch : EligibilityCheck) : string * bool :=
  (criterion ch, passed ch).

(** One step of the loop body, seen from outside: a criterion either is
    not reported, or is reported and its outcome is and-ed into the
    flag. *)
Definition emit (e : option EligibilityCheck) (v : Verdict) : Verdict :=
  match e with
  | None => v
  | Some ch => mkVerdict (v_isEligible v && passed ch) (v_checks v ++ [ch])
  end.

(** The checks a step adds to the trace. *)
Definition reported (e : option EligibilityCheck) : list EligibilityCheck :=
  match e with
  | None => []
  | Some ch => [ch]
  end.

Section TraceSpec.

Variable p : Profile.
Variable userAge : Z.
Variable userIncome userCgpa : number.
Variable c : Criteria.

Local Abbreviation meets := (satisfies p userAge userIncome userCgpa c).

Definition entry_cgpa : option EligibilityCheck :=
  Some (mkCheck "CGPA" (NumberRange (minCgpa c) (maxCgpa c))
                (PlainNumber userCgpa) (meets "CGPA")).

Definition entry_education : option EligibilityCheck :=
  if constrained c "Education Level"
  then Some (mkCheck "Education Level" (OneOf (requiredEducation c))
                     (Text (currentEducation p)) (meets "Education Level"))
  else None.

Definition entry_field : option EligibilityCheck :=
  if constrained c "Field of Study"
  then Some (mkCheck "Field of Study" (OneOf (requiredFields c))
                     (Text (fieldOfStudy p)) (meets "Field of Study"))
  else None.

Definition entry_income : option EligibilityCheck :=
  Some (mkCheck "Family Income"
                (RupeeRange (minFamilyIncome c) (maxFamilyIncome c))
                (Rupees userIncome) (meets "Family Income")).

Definition entry_gender : option EligibilityCheck :=
  if constrained c "Gender"
  then Some (mkCheck "Gender" (OneOf (allowedGenders c))
                     (Text (gender p)) (meets "Gender"))
  else None.

Definition entry_category : option EligibilityCheck :=
  if constrained c "Category"
  then Some (mkCheck "Category" (OneOf (allowedCategories c))
                     (Text (category p)) (meets "Category"))
  else None.

Definition entry_age : option EligibilityCheck :=
  Some (mkCheck "Age" (YearRange (minAge c) (maxAge c))
                (Years userAge) (meets "Age")).

(** The checks a run reports, in order. *)
Definition trace : list EligibilityCheck :=
  reported entry_cgpa ++ reported entry_education ++ reported entry_field
  ++ reported entry_income ++ reported entry_gender
  ++ reported entry_category ++ reported entry_age.

End TraceSpec.

(** The example of the specification: allowedGenders = ["All"], a female
    user with CGPA 9.0 against 8.5 - 10 has a passed CGPA check and no
    Gender entry. *)
Definition example_criteria : Criteria :=
  mkCriteria (toDouble (17 # 2)) (ofZ 10) [] [] (ofZ 999999999) (ofZ 0)
             [js "All"] [] (ofZ 0) (ofZ 100) [] [].

Definition example_profile : Profile :=
  mkProfile (Some (js "Asha")) None (Some (js "Female")) None None None
            (Some (js "9.0")) None true.

(** ** Match percentage *)

(** round(100 × passed / total) over the rationals: the nearest integer,
    a half rounding up.  (Meant for [total > 0].) *)
Definition nearest_percent (passed_count total : nat) : Z :=
  Qfloor (100 * (inject_Z (Z.of_nat passed_count)
                 / inject_Z (Z.of_nat total)) + (1 # 2)).

(** ** Ranking *)

(** Under a comparator, [x] may stand before [y]: the comparator does not
    send [x] after [y]. *)
Definition stays (A : Type) (comparefn : A -> A -> number) (x y : A) : Prop :=
  goes_after comparefn x y = false.

(** A match percentage as the evaluator produces it: an integer from 0 to
    100. *)
Definition percent_ok (r : EligibilityResult) : Prop :=
  exists z : Z, (0 <= z <= 100)%Z /\ matchPercentage r = Fin (inject_Z z).

(** [a] may stand before [b] in the ranking: an ineligible result is not
    before an eligible one, and of two results of the same eligibility
    the first has no smaller match percentage. *)
Definition precedes (a b : EligibilityResult) : Prop :=
  (isEligible a = false -> isEligible b = false)
  /\ (isEligible a = isEligible b ->
      lt (matchPercentage a) (matchPercentage b) = false).

(** The results with the key (isEligible, matchPercentage) = (e, m). *)
Definition has_key (e : bool) (m : number) (r : EligibilityResult) : bool :=
  Bool.eqb e (isEligible r) && strict_eq m (matchPercentage r).

(** [output] is the stable, eligible-first, descending-percentage
    arrangement of [input]. *)
Definition ranking (input output : list EligibilityResult) : Prop :=
  Permutation input output
  /\ StronglySorted precedes output
  /\ forall e m, filter (has_key e m) output = filter (has_key e m) input.

(** The integers from 0 to 100. *)
Definition percents : list Z := map Z.of_nat (seq 0 101).

(** ** Requests *)

(** The results of the loop, in the order of the scholarships, when the
    first iteration reads the clock for the [n]-th time. *)
Fixpoint loop_results (clock : nat -> Date) (p : Profile) (userAge : Z)
    (userIncome userCgpa : number) (n : nat) (l : list Scholarship)
    : list EligibilityResult :=
  match l with
  | [] => []
  | s :: l' =>
      evaluate p userAge userIncome userCgpa (clock n) s
      :: loop_results clock p userAge userIncome userCgpa (S n) l'
  end.

(** A request that reaches the evaluation: the e-mail is given, the user
    exists and the profile is marked complete. *)
Definition complete_request (users : list User) (e : JSString) (u : User)
    (p : Profile) : Prop :=
  e <> []
  /\ find (fun u' => jsstring_eqb (email u') e) users = Some u
  /\ profile u = Some p
  /\ isProfileComplete p = true.

(** ** Example documents *)

Definition noon_2_nov_2026 : Date := mkDate 1793620800000 2026 10 2.
Definition end_of_2024 : Date := mkDate 1735603200000 2024 11 31.

Definition open_criteria : Criteria :=
  mkCriteria (ofZ 6) (ofZ 10) [] [] (ofZ 999999999) (ofZ 0)
             [js "All"] [] (ofZ 17) (ofZ 30) [] [].

Definition expired_scholarship : Scholarship :=
  mkScholarship 7 (js "Merit Scholarship") None (js "Tech Foundation")
                (js "50000") open_criteria (Some end_of_2024) []
                (mkContactInfo None None None) true.

Definition asha_profile (complete : bool) : Profile :=
  mkProfile (Some (js "Asha")) (Some (mkDate 1162512000000 2006 10 3))
            (Some (js "Female")) (Some (js "General"))
            (Some (js "Undergraduate")) (Some (js "Engineering"))
            (Some (js "9.0")) (Some (js "5 lakh")) complete.

Definition asha (complete : bool) : User :=
  mkUser (js "Asha") (js "asha@example.org") (Some (asha_profile complete)).

Definition result_A : EligibilityResult :=
  mkResult (summary expired_scholarship) false "Active" [] (ofZ 90).
Definition result_B : EligibilityResult :=
  mkResult (summary expired_scholarship) true "Active" [] (ofZ 60).
Definition result_C : EligibilityResult :=
  mkResult (summary expired_scholarship) true "Active" [] (ofZ 80).

(** ** Further vocabulary *)

(** What [parseIncome] computes from the cleaned text. *)
Definition income_of_clean (cleanIncome : JSString) : number :=
  if includes cleanIncome (js "-") then
    div (add (parseFloat (nth_error (split hyphen cleanIncome) 0))
             (parseFloat (nth_error (split hyphen cleanIncome) 1)))
        (ofZ 2)
  else if includes (toLowerCase cleanIncome) (js "lakh") then
    mul (parseFloat (Some (keep_digits_and_dots cleanIncome))) (ofZ 100000)
  else if includes (toLowerCase cleanIncome) (js "crore") then
    mul (parseFloat (Some (keep_digits_and_dots cleanIncome))) (ofZ 10000000)
  else or_else (parseFloat (Some cleanIncome)) (ofZ 0).

(** The birth date lies after today on the calendar. *)
Definition born_after (today birthDate : Date) : Prop :=
  (getFullYear today < getFullYear birthDate
   \/ (getFullYear today = getFullYear birthDate
       /\ birthday_pending today birthDate))%Z.

(** The user documents as the eligibility handler sees them. *)
Definition users_of (accounts : list Account) : list User :=
  map account_user accounts.

(** The profile's value is set and is one of the allowed strings. *)
Definition member (v : option JSString) (allowed : list JSString) : Prop :=
  exists x, v = Some x /\ In x allowed.

(** The outcomes of an evaluation: the criteria reported, each with
    whether it passed. *)
Definition outcomes (r : EligibilityResult) : list (string * bool) :=
  map outcome (eligibilityChecks r).

(** A scholarship open to everybody until the end of 2026. *)
Definition open_scholarship : Scholarship :=
  mkScholarship 8 (js "Open Scholarship") None (js "Education Trust")
                (js "30000") open_criteria
                (Some (mkDate 1798675200000 2026 11 31)) []
                (mkContactInfo None None None) true.

(** A scholarship for women, and a profile that leaves the gender
    unset. *)
Definition women_scholarship : Scholarship :=
  mkScholarship 9 (js "Women in STEM") None (js "Empowerment Society")
                (js "75000")
                (mkCriteria (ofZ 0) (ofZ 10) [] [] (ofZ 999999999) (ofZ 0)
                            [js "Female"] [] (ofZ 0) (ofZ 100) [] [])
                None [] (mkContactInfo None None None) true.

Definition unset_gender_profile : Profile :=
  mkProfile (Some (js "Ravi")) None None None None None
            (Some (js "8.1")) (Some (js "200000")) true.

(** The ages for which [ofZ] is checked by evaluation. *)
Definition ages : list Z := map (fun n => Z.of_nat n - 1000)%Z (seq 0 2001).

(** An inactive scholarship, and a small collection. *)
Definition inactive_scholarship : Scholarship :=
  mkScholarship 11 (js "Closed Scholarship") None (js "Education Trust")
                (js "10000") open_criteria None []
                (mkContactInfo None None None) false.

Definition example_scholarships : list Scholarship :=
  [expired_scholarship; inactive_scholarship; open_scholarship].

(** The text has a unit that is not white space. *)
Definition has_content (s : JSString) : Prop :=
  Exists (fun c => is_space c = false) s.

(** A form with nine fields filled, one of them only with blanks beside
    it. *)
Definition nine_field_form : ProfileForm :=
  mkProfileForm (Some (js "Asha")) (Some (js "9876543210"))
                (Some (js "2006-11-03")) (Some (js "Female"))
                (Some (js "General")) (Some (js "Undergraduate"))
                (Some (js "Engineering")) (Some (js "IIT"))
                (Some (js "9.0")) (Some (js "   ")) None (Some (js "")).

(** The e-mail of an account, and whether an e-mail is taken. *)
Definition email_of (a : Account) : JSString := email (account_user a).

Definition taken (e : JSString) (accounts : list Account) : Prop :=
  exists a, In a accounts /\ email_of a = e.

(** All four fields of a registration are present and not empty. *)
Definition all_given (b : RegisterBody) : Prop :=
  given (reg_name b) <> None /\ given (reg_email b) <> None
  /\ given (reg_mobile b) <> None /\ given (reg_password b) <> None.

(** All four questions of a feedback are answered. *)
Definition all_answered (r : Responses) : Prop :=
  given (q1 r) <> None /\ given (q2 r) <> None
  /\ given (q3 r) <> None /\ given (q4 r) <> None.

Definition ravi_registration : RegisterBody :=
  mkRegisterBody (Some (js "Ravi")) (Some (js "ravi@example.org"))
                 (Some (js "9876543210")) (Some (js "secret")).

Definition asha_account : Account :=
  mkAccount (asha true) (js "9123456780") (js "$2a$10$hash") (js "user").

(** The application deadline exists and lies strictly before [now]. *)
Definition deadline_expired (s : Scholarship) (now : Date) : Prop :=
  exists d, applicationDeadline s = Some d /\ (getTime d < getTime now)%Z.

(* ================================================================== *)
(** * Properties *)

(** ** Numbers and strings *)

(** The rounding of [toDouble] on familiar cases: 0.1 + 0.2, a tie
    between two doubles above 2^53, the least subnormal. *)
Example double_sum_of_tenths :
  add (toDouble (1 # 10)) (toDouble (2 # 10))
  = Fin (1351079888211149 # 4503599627370496).
Proof. vm_compute. reflexivity. Qed.

Example double_tie_to_even :
  ofZ 9007199254740993 = Fin 9007199254740992
  /\ ofZ 9007199254740995 = Fin 9007199254740996.
Proof. split; vm_compute; reflexivity. Qed.

Example double_underflow :
  parseFloat (Some (js "2e-324")) = Fin 0
  /\ parseFloat (Some (js "3e-324")) = parseFloat (Some (js "5e-324")).
Proof. split; vm_compute; reflexivity. Qed.

Example parseFloat_8_5 : parseFloat (Some (js "8.5")) = Fin (17 # 2).
Proof. vm_compute. reflexivity. Qed.

Example parseFloat_exp : parseFloat (Some (js " -12.5e-1x")) = Fin (-5 # 4).
Proof. vm_compute. reflexivity. Qed.

Example parseFloat_dangling_dot : parseFloat (Some (js ".")) = NaN.
Proof. reflexivity. Qed.

Example parseFloat_overflow : parseFloat (Some (js "1e309")) = PInf.
Proof. vm_compute. reflexivity. Qed.

Example toDouble_tenth :
  toDouble (1 # 10) = Fin (3602879701896397 # 36028797018963968).
Proof. vm_compute. reflexivity. Qed.

(** ** The income normalizer *)

(** C7. On the inputs the specification lists, [parseIncome] returns the
    listed values: "300000-500000" gives 400000, which is the arithmetic
    mean of the two ends of the range; "5 lakh" gives 500000; "2 crore"
    gives 20000000; the empty string gives 0. *)
Theorem parseIncome_listed_values :
  parseIncome (Some (js "300000-500000"))
    = div (add (ofZ 300000) (ofZ 500000)) (ofZ 2)
  /\ parseIncome (Some (js "300000-500000")) = ofZ 400000
  /\ parseIncome (Some (js "5 lakh")) = ofZ 500000
  /\ parseIncome (Some (js "2 crore")) = ofZ 20000000
  /\ parseIncome (Some (js "")) = ofZ 0.
Proof. repeat split; vm_compute; reflexivity. Qed.

Example parseIncome_rupee_commas :
  parseIncome (Some (rupee :: js "5,00,000")) = ofZ 500000.
Proof. vm_compute. reflexivity. Qed.

Example parseIncome_absent : parseIncome None = ofZ 0.
Proof. reflexivity. Qed.

Example parseIncome_plain_garbage : parseIncome (Some (js "abc")) = ofZ 0.
Proof. vm_compute. reflexivity. Qed.

(** The last return of [parseIncome] is guarded by [|| 0] and so is never
    [NaN]. *)
Lemma or_else_zero_not_NaN (x : number) : or_else x (ofZ 0) <> NaN.
Proof.
  unfold or_else. destruct x; simpl; try discriminate.
  destruct (Qeq_bool q 0); discriminate.
Qed.

(** C8. The unit-word and range returns of [parseIncome] lack the [|| 0]
    of its last return: a unit word with no digits, or a range with an
    unparsable end, comes out as [NaN], which is neither finite nor 0. *)
Theorem parseIncome_NaN_without_digits :
  parseIncome (Some (js "lakh")) = NaN
  /\ parseIncome (Some (js "crore")) = NaN
  /\ parseIncome (Some (js "low-high")) = NaN
  /\ isFinite (parseIncome (Some (js "lakh"))) = false.
Proof. repeat split; vm_compute; reflexivity. Qed.

(** The guarded return lets an infinity through. *)
Example parseIncome_infinity :
  parseIncome (Some (js "Infinity")) = PInf
  /\ parseIncome (Some (js "1e999")) = PInf.
Proof. split; vm_compute; reflexivity. Qed.

(** A [NaN] income then passes the Family Income check, both comparisons
    being false. *)
Example NaN_income_passes (c : Criteria) :
  v_checks (check_income NaN c (mkVerdict true []))
  = [mkCheck "Family Income"
       (RupeeRange (minFamilyIncome c) (maxFamilyIncome c)) (Rupees NaN) true].
Proof.
  unfold check_income, gt, lt.
  destruct (maxFamilyIncome c), (minFamilyIncome c); reflexivity.
Qed.

(** ** The age calculator *)

Lemma birthday_pending_test (today b : Date) :
  (((getMonth today - getMonth b <? 0)
    || ((getMonth today - getMonth b =? 0) && (getDate today <? getDate b)))
   = true)%Z
  <-> birthday_pending today b.
Proof.
  unfold birthday_pending.
  rewrite orb_true_iff, andb_true_iff, !Z.ltb_lt, Z.eqb_eq. lia.
Qed.

Lemma calculateAge_value (clock : nat -> Date) (w : World) (b : Date) :
  let today := clock (ticks w) in
  (birthday_pending today b ->
   fst (calculateAge clock (Some b) w)
   = (getFullYear today - getFullYear b - 1)%Z)
  /\ (~ birthday_pending today b ->
      fst (calculateAge clock (Some b) w)
      = (getFullYear today - getFullYear b)%Z).
Proof.
  intros today. unfold calculateAge, bind, newDate. fold today.
  pose proof (birthday_pending_test today b) as Ht.
  destruct (((getMonth today - getMonth b <? 0)
    || ((getMonth today - getMonth b =? 0) && (getDate today <? getDate b)))%Z)
    eqn:E; split; intros H; simpl.
  - reflexivity.
  - exfalso. apply H, Ht. reflexivity.
  - apply Ht in H. discriminate.
  - reflexivity.
Qed.

(** C9. [calculateAge] is 0 for an absent date of birth.  Otherwise it is
    the difference of the calendar years of today and of the birth date,
    less one exactly when today's month/day precedes the birth month/day.
    So a birth date 20 years before today, same month and day, gives 20,
    and a birth date in the year 20 years back whose month/day is still to
    come this year gives 19. *)
Theorem calculateAge_spec (clock : nat -> Date) (w : World) :
  let today := clock (ticks w) in
  fst (calculateAge clock None w) = 0%Z
  /\ (forall b, birthday_pending today b ->
        fst (calculateAge clock (Some b) w)
        = (getFullYear today - getFullYear b - 1)%Z)
  /\ (forall b, ~ birthday_pending today b ->
        fst (calculateAge clock (Some b) w)
        = (getFullYear today - getFullYear b)%Z)
  /\ (forall b,
        getFullYear b = (getFullYear today - 20)%Z ->
        getMonth b = getMonth today ->
        getDate b = getDate today ->
        fst (calculateAge clock (Some b) w) = 20%Z)
  /\ (forall b,
        getFullYear b = (getFullYear today - 20)%Z ->
        birthday_pending today b ->
        fst (calculateAge clock (Some b) w) = 19%Z).
Proof.
  intros today. split; [reflexivity |].
  split; [intros b; apply (calculateAge_value clock w b) |].
  split; [intros b; apply (calculateAge_value clock w b) |].
  split.
  - intros b Hy Hm Hd.
    destruct (calculateAge_value clock w b) as [_ H]. fold today in H.
    rewrite H; [lia |]. unfold birthday_pending. lia.
  - intros b Hy Hp.
    destruct (calculateAge_value clock w b) as [H _]. fold today in H.
    rewrite H; [lia | exact Hp].
Qed.

(** Today is 2 November 2026; born 3 November 2006: still 19. *)
Lemma calculateAge_spec_witness :
  let clock := fun _ : nat => mkDate 1793577600000 2026 10 2 in
  let b := mkDate 1162512000000 2006 10 3 in
  getFullYear b = (getFullYear (clock 0%nat) - 20)%Z
  /\ birthday_pending (clock 0%nat) b
  /\ fst (calculateAge clock (Some b) fresh) = 19%Z.
Proof.
  intros clock b.
  assert (Hy : getFullYear b = (getFullYear (clock 0%nat) - 20)%Z)
    by reflexivity.
  assert (Hp : birthday_pending (clock 0%nat) b)
    by (right; simpl; lia).
  split; [exact Hy |]. split; [exact Hp |].
  destruct (calculateAge_spec clock fresh) as (_ & _ & _ & _ & H).
  exact (H b Hy Hp).
Defined.

(* ================================================================== *)
(** ** The check trace *)

Lemma jsstring_eqb_eq (a b : JSString) : jsstring_eqb a b = true <-> a = b.
Proof.
  revert b. induction a as [| x a IH]; intros [| y b]; simpl;
    try (split; [discriminate | discriminate]); [tauto |].
  rewrite andb_true_iff, N.eqb_eq, IH. split.
  - intros [-> ->]. reflexivity.
  - intros H. injection H as -> ->. split; reflexivity.
Qed.

Lemma array_includes_In (xs : list JSString) (s : JSString) :
  array_includes xs (Some s) = true <-> In s xs.
Proof.
  simpl. rewrite existsb_exists. split.
  - intros (x & Hin & Heq). apply jsstring_eqb_eq in Heq. subst. exact Hin.
  - intros Hin. exists s. split; [exact Hin | apply jsstring_eqb_eq; reflexivity].
Qed.

Lemma nonempty_true (A : Type) (xs : list A) : nonempty xs = true <-> xs <> [].
Proof. destruct xs; simpl; split; congruence. Qed.

Lemma emit_checks (e : option EligibilityCheck) (v : Verdict) :
  v_checks (emit e v) = v_checks v ++ reported e.
Proof. destruct e; simpl; [reflexivity | rewrite app_nil_r; reflexivity]. Qed.

Lemma emit_isEligible (e : option EligibilityCheck) (v : Verdict) :
  v_isEligible (emit e v) = v_isEligible v && forallb passed (reported e).
Proof.
  destruct e; simpl; [rewrite andb_true_r | rewrite andb_true_r]; reflexivity.
Qed.

Lemma push_emit (ch : EligibilityCheck) (v : Verdict) :
  passed ch = true -> push ch v = emit (Some ch) v.
Proof. intros H. unfold push, emit. rewrite H, andb_true_r. reflexivity. Qed.

Lemma reject_emit (ch : EligibilityCheck) (v : Verdict) :
  passed ch = false -> reject ch v = emit (Some ch) v.
Proof. intros H. unfold reject, emit. rewrite H, andb_false_r. reflexivity. Qed.

Section Trace.

Variable p : Profile.
Variable userAge : Z.
Variable userIncome userCgpa : number.
Variable c : Criteria.

Local Abbreviation meets := (satisfies p userAge userIncome userCgpa c).

Ltac close_step :=
  cbn [andb orb negb];
  first [ reflexivity
        | apply push_emit; reflexivity
        | apply reject_emit; reflexivity ].

Lemma check_cgpa_emit v : check_cgpa userCgpa c v =
  emit (entry_cgpa p userAge userIncome userCgpa c) v.
Proof.
  unfold check_cgpa, entry_cgpa.
  change (meets "CGPA")
    with (negb (lt userCgpa (minCgpa c) || gt userCgpa (maxCgpa c))).
  destruct (lt userCgpa (minCgpa c) || gt userCgpa (maxCgpa c)); close_step.
Qed.

Lemma check_education_emit v : check_education p c v =
  emit (entry_education p userAge userIncome userCgpa c) v.
Proof.
  unfold check_education, entry_education.
  change (constrained c "Education Level")
    with (nonempty (requiredEducation c)).
  change (meets "Education Level")
    with (array_includes (requiredEducation c) (currentEducation p)).
  destruct (nonempty (requiredEducation c));
    destruct (array_includes (requiredEducation c) (currentEducation p));
    close_step.
Qed.

Lemma check_field_emit v : check_field p c v =
  emit (entry_field p userAge userIncome userCgpa c) v.
Proof.
  unfold check_field, entry_field.
  change (constrained c "Field of Study") with (nonempty (requiredFields c)).
  change (meets "Field of Study")
    with (array_includes (requiredFields c) (fieldOfStudy p)).
  destruct (nonempty (requiredFields c));
    destruct (array_includes (requiredFields c) (fieldOfStudy p));
    close_step.
Qed.

Lemma check_income_emit v : check_income userIncome c v =
  emit (entry_income p userAge userIncome userCgpa c) v.
Proof.
  unfold check_income, entry_income.
  change (meets "Family Income")
    with (negb (gt userIncome (maxFamilyIncome c)
                || lt userIncome (minFamilyIncome c))).
  destruct (gt userIncome (maxFamilyIncome c)
            || lt userIncome (minFamilyIncome c)); close_step.
Qed.

Lemma check_gender_emit v : check_gender p c v =
  emit (entry_gender p userAge userIncome userCgpa c) v.
Proof.
  unfold check_gender, entry_gender.
  change (constrained c "Gender")
    with (nonempty (allowedGenders c)
          && negb (array_includes (allowedGenders c) (Some (js "All")))).
  change (meets "Gender")
    with (array_includes (allowedGenders c) (gender p)).
  destruct (nonempty (allowedGenders c));
    destruct (array_includes (allowedGenders c) (Some (js "All")));
    destruct (array_includes (allowedGenders c) (gender p));
    close_step.
Qed.

Lemma check_category_emit v : check_category p c v =
  emit (entry_category p userAge userIncome userCgpa c) v.
Proof.
  unfold check_category, entry_category.
  change (constrained c "Category") with (nonempty (allowedCategories c)).
  change (meets "Category")
    with (array_includes (allowedCategories c) (category p)).
  destruct (nonempty (allowedCategories c));
    destruct (array_includes (allowedCategories c) (category p));
    close_step.
Qed.

Lemma check_age_emit v : check_age userAge c v =
  emit (entry_age p userAge userIncome userCgpa c) v.
Proof.
  unfold check_age, entry_age.
  change (meets "Age")
    with (negb (lt (ofZ userAge) (minAge c) || gt (ofZ userAge) (maxAge c))).
  destruct (lt (ofZ userAge) (minAge c) || gt (ofZ userAge) (maxAge c));
    close_step.
Qed.

Lemma run_checks_trace :
  v_checks (run_checks p userAge userIncome userCgpa c)
  = trace p userAge userIncome userCgpa c.
Proof.
  unfold run_checks, trace.
  rewrite check_age_emit, check_category_emit, check_gender_emit,
    check_income_emit, check_field_emit, check_education_emit,
    check_cgpa_emit.
  rewrite !emit_checks. cbn [v_checks app]. rewrite <- !app_assoc.
  reflexivity.
Qed.

Lemma run_checks_isEligible :
  v_isEligible (run_checks p userAge userIncome userCgpa c)
  = forallb passed (trace p userAge userIncome userCgpa c).
Proof.
  unfold run_checks, trace.
  rewrite check_age_emit, check_category_emit, check_gender_emit,
    check_income_emit, check_field_emit, check_education_emit,
    check_cgpa_emit.
  rewrite !emit_isEligible. cbn [v_isEligible andb].
  rewrite !forallb_app, !andb_assoc. reflexivity.
Qed.

(** Each constrained criterion is reported once, in order, with its own
    outcome, whatever the outcomes before it. *)
Lemma trace_outcomes :
  map outcome (trace p userAge userIncome userCgpa c)
  = map (fun n => (n, meets n)) (filter (constrained c) all_criteria).
Proof.
  unfold trace, entry_cgpa, entry_education, entry_field, entry_income,
    entry_gender, entry_category, entry_age, all_criteria.
  cbn [filter].
  change (constrained c "CGPA") with true.
  change (constrained c "Family Income") with true.
  change (constrained c "Age") with true.
  destruct (constrained c "Education Level");
  destruct (constrained c "Field of Study");
  destruct (constrained c "Gender");
  destruct (constrained c "Category");
  reflexivity.
Qed.

Lemma trace_length :
  (3 <= List.length (trace p userAge userIncome userCgpa c) <= 7)%nat.
Proof.
  unfold trace, entry_cgpa, entry_education, entry_field, entry_income,
    entry_gender, entry_category, entry_age.
  destruct (constrained c "Education Level");
  destruct (constrained c "Field of Study");
  destruct (constrained c "Gender");
  destruct (constrained c "Category");
  simpl; lia.
Qed.

End Trace.

(** The checks of an evaluation are the trace of its scholarship's
    criteria. *)
Lemma evaluate_checks p userAge userIncome userCgpa now s :
  eligibilityChecks (evaluate p userAge userIncome userCgpa now s)
  = trace p userAge userIncome userCgpa (eligibilityCriteria s).
Proof. unfold evaluate. cbn [eligibilityChecks]. apply run_checks_trace. Qed.

Lemma constrained_always (c : Criteria) :
  constrained c "CGPA" = true
  /\ constrained c "Family Income" = true
  /\ constrained c "Age" = true.
Proof. repeat split. Qed.

Lemma constrained_gender (c : Criteria) :
  constrained c "Gender" = true
  <-> allowedGenders c <> [] /\ ~ In (js "All") (allowedGenders c).
Proof.
  change (constrained c "Gender")
    with (nonempty (allowedGenders c)
          && negb (array_includes (allowedGenders c) (Some (js "All")))).
  rewrite andb_true_iff, negb_true_iff, nonempty_true,
    <- not_true_iff_false, array_includes_In.
  reflexivity.
Qed.

(** C5. The criteria named in the check trace are exactly those of the
    fixed list CGPA, Education Level, Field of Study, Family Income,
    Gender, Category, Age that the scholarship constrains, in that order:
    CGPA, Family Income and Age always; Education Level iff
    [requiredEducation] is non-empty; Field of Study iff [requiredFields]
    is non-empty; Gender iff [allowedGenders] is non-empty and does not
    hold "All"; Category iff [allowedCategories] is non-empty.  An
    unconstrained criterion has no entry. *)
Theorem trace_is_constrained_subsequence
    (p : Profile) (userAge : Z) (userIncome userCgpa : number)
    (now : Date) (s : Scholarship) :
  let c := eligibilityCriteria s in
  map criterion
      (eligibilityChecks (evaluate p userAge userIncome userCgpa now s))
  = filter (constrained c) all_criteria
  /\ (constrained c "CGPA" = true
      /\ constrained c "Family Income" = true
      /\ constrained c "Age" = true)
  /\ (constrained c "Education Level" = true <-> requiredEducation c <> [])
  /\ (constrained c "Field of Study" = true <-> requiredFields c <> [])
  /\ (constrained c "Gender" = true
      <-> allowedGenders c <> [] /\ ~ In (js "All") (allowedGenders c))
  /\ (constrained c "Category" = true <-> allowedCategories c <> []).
Proof.
  intros c. split.
  - rewrite evaluate_checks. fold c.
    pose proof (trace_outcomes p userAge userIncome userCgpa c) as H.
    apply (f_equal (map fst)) in H. rewrite !map_map in H.
    cbn [outcome fst] in H. rewrite map_id in H. exact H.
  - split; [apply constrained_always |].
    split; [apply nonempty_true |].
    split; [apply nonempty_true |].
    split; [apply constrained_gender | apply nonempty_true].
Qed.

Example all_genders_no_entry :
  map outcome
      (v_checks (run_checks example_profile 0
                   (parseIncome (familyIncome example_profile))
                   (or_else (parseFloat (cgpa example_profile)) (ofZ 0))
                   example_criteria))
  = [("CGPA", true); ("Family Income", true); ("Age", true)]%string.
Proof. vm_compute. reflexivity. Qed.

Lemma trace_is_constrained_subsequence_witness :
  let s := mkScholarship 1 (js "Merit") None (js "Trust") (js "1000")
             example_criteria None [] (mkContactInfo None None None) true in
  allowedGenders (eligibilityCriteria s) <> []
  /\ constrained (eligibilityCriteria s) "Gender" = false
  /\ map criterion
       (eligibilityChecks
          (evaluate example_profile 0 (ofZ 0) (ofZ 9) (mkDate 0 1970 0 1) s))
     = ["CGPA"; "Family Income"; "Age"]%string.
Proof.
  intros s. split; [discriminate |]. split; [reflexivity |].
  destruct (trace_is_constrained_subsequence
              example_profile 0 (ofZ 0) (ofZ 9) (mkDate 0 1970 0 1) s)
    as [H _].
  rewrite H. reflexivity.
Defined.

Lemma deadline_passed_iff (s : Scholarship) (now : Date) :
  deadline_passed s now = true <-> deadline_expired s now.
Proof.
  unfold deadline_passed, deadline_expired.
  destruct (applicationDeadline s) as [d |].
  - rewrite Z.ltb_lt. split.
    + intros H. exists d. split; [reflexivity | exact H].
    + intros (d' & E & H). injection E as <-. exact H.
  - split; [discriminate |]. intros (d & E & _). discriminate.
Qed.

(** C1. The result is eligible iff every reported check passed and the
    deadline is not expired, that is, it is not the case that the
    scholarship has an application deadline strictly before now; the
    status shown is "Expired" in exactly that case and "Active"
    otherwise.  Every constrained criterion is reported with its own
    outcome whatever happened to the criteria before it, so the trace is
    complete. *)
Theorem isEligible_iff_all_passed_and_active
    (p : Profile) (userAge : Z) (userIncome userCgpa : number)
    (now : Date) (s : Scholarship) :
  let r := evaluate p userAge userIncome userCgpa now s in
  (isEligible r = true
   <-> Forall (fun ch => passed ch = true) (eligibilityChecks r)
       /\ ~ deadline_expired s now)
  /\ (deadlineStatus r = "Expired"%string <-> deadline_expired s now)
  /\ (deadlineStatus r = "Active"%string <-> ~ deadline_expired s now)
  /\ map outcome (eligibilityChecks r)
     = map (fun n => (n, satisfies p userAge userIncome userCgpa
                           (eligibilityCriteria s) n))
           (filter (constrained (eligibilityCriteria s)) all_criteria).
Proof.
  intros r. subst r. rewrite evaluate_checks. unfold evaluate.
  cbn [isEligible deadlineStatus eligibilityChecks].
  rewrite run_checks_isEligible, Forall_forall, <- forallb_forall.
  pose proof (deadline_passed_iff s now) as Hd.
  destruct (deadline_passed s now).
  - assert (He : deadline_expired s now) by (apply Hd; reflexivity).
    split; [| split; [| split]].
    + split; [discriminate | intros [_ H]; tauto].
    + split; [intros _; exact He | reflexivity].
    + split; [discriminate | tauto].
    + apply trace_outcomes.
  - assert (He : ~ deadline_expired s now)
      by (intros H; apply Hd in H; discriminate).
    split; [| split; [| split]].
    + split; [intros H; split; assumption | intros [H _]; exact H].
    + split; [discriminate | tauto].
    + split; [intros _; exact He | reflexivity].
    + apply trace_outcomes.
Qed.

(** A failed CGPA check does not stop the later checks: with CGPA 5
    against 8.5 - 10 all three unconditional checks are still reported.
    And a passed deadline alone makes a result ineligible: Asha passes
    every check of the expired scholarship. *)
Lemma isEligible_iff_all_passed_and_active_witness :
  let s := mkScholarship 1 (js "Merit") None (js "Trust") (js "1000")
             example_criteria None [] (mkContactInfo None None None) true in
  let r := evaluate example_profile 20 (ofZ 0) (ofZ 5)
                    (mkDate 0 1970 0 1) s in
  let r' := evaluate (asha_profile true) 19 (ofZ 500000) (ofZ 9)
                     noon_2_nov_2026 expired_scholarship in
  (isEligible r = false
   /\ map outcome (eligibilityChecks r)
      = [("CGPA", false); ("Family Income", true); ("Age", true)]%string
   /\ deadlineStatus r = "Active"%string)
  /\ (deadline_expired expired_scholarship noon_2_nov_2026
      /\ map outcome (eligibilityChecks r')
         = [("CGPA", true); ("Family Income", true); ("Age", true)]%string
      /\ deadlineStatus r' = "Expired"%string
      /\ isEligible r' = false).
Proof.
  intros s r r'. split.
  - destruct (isEligible_iff_all_passed_and_active
                example_profile 20 (ofZ 0) (ofZ 5) (mkDate 0 1970 0 1) s)
      as (_ & _ & Hact & _).
    split; [vm_compute; reflexivity |].
    split; [vm_compute; reflexivity |].
    apply Hact. intros (d & E & _). discriminate.
  - assert (Hexp : deadline_expired expired_scholarship noon_2_nov_2026).
    { exists end_of_2024. split; [reflexivity | simpl; lia]. }
    destruct (isEligible_iff_all_passed_and_active
                (asha_profile true) 19 (ofZ 500000) (ofZ 9)
                noon_2_nov_2026 expired_scholarship)
      as (Hel & Hst & _ & _).
    split; [exact Hexp |].
    split; [vm_compute; reflexivity |].
    split; [apply Hst; exact Hexp |].
    apply not_true_iff_false. intros H. apply Hel in H.
    destruct H as [_ H]. exact (H Hexp).
Defined.

(* ================================================================== *)
(** ** The match percentage *)

(** For the trace lengths that occur, the double-precision computation of
    the code agrees with the exact one. *)
Lemma percent_of_counts (k n : nat) :
  (3 <= n <= 7)%nat -> (k <= n)%nat ->
  round (mul (div (ofZ (Z.of_nat k)) (ofZ (Z.of_nat n))) (ofZ 100))
  = Fin (inject_Z (nearest_percent k n))
  /\ (0 <= nearest_percent k n <= 100)%Z.
Proof.
  intros Hn Hk.
  assert (n = 3 \/ n = 4 \/ n = 5 \/ n = 6 \/ n = 7)%nat
    as [-> | [-> | [-> | [-> | ->]]]] by lia;
  (assert (k = 0 \/ k = 1 \/ k = 2 \/ k = 3 \/ k = 4 \/ k = 5 \/ k = 6
           \/ k = 7)%nat
     as [-> | [-> | [-> | [-> | [-> | [-> | [-> | ->]]]]]]] by lia);
  try (exfalso; lia);
  (split; [vm_compute; reflexivity | vm_compute; split; discriminate]).
Qed.

Lemma passed_count_le (l : list EligibilityCheck) :
  (List.length (filter passed l) <= List.length l)%nat.
Proof.
  induction l as [| ch l IH]; simpl; [lia |].
  destruct (passed ch); simpl; lia.
Qed.

Lemma evaluate_checks_length p userAge userIncome userCgpa now s :
  (3 <= List.length
          (eligibilityChecks (evaluate p userAge userIncome userCgpa now s))
   <= 7)%nat.
Proof. rewrite evaluate_checks. apply trace_length. Qed.

Lemma evaluate_matchPercentage p userAge userIncome userCgpa now s :
  let r := evaluate p userAge userIncome userCgpa now s in
  matchPercentage r
  = Fin (inject_Z (nearest_percent
                     (List.length (filter passed (eligibilityChecks r)))
                     (List.length (eligibilityChecks r))))
  /\ (0 <= nearest_percent
             (List.length (filter passed (eligibilityChecks r)))
             (List.length (eligibilityChecks r)) <= 100)%Z.
Proof.
  intros r.
  change (matchPercentage r) with (match_percentage (eligibilityChecks r)).
  unfold match_percentage. apply percent_of_counts.
  - apply evaluate_checks_length.
  - apply passed_count_le.
Qed.

(** C10. Every evaluation reports at least three checks (and at most
    seven), so the denominator of the match percentage is never zero and
    the match percentage is an integer from 0 to 100; an evaluation with
    no checks does not occur. *)
Theorem at_least_three_checks
    (p : Profile) (userAge : Z) (userIncome userCgpa : number)
    (now : Date) (s : Scholarship) :
  let r := evaluate p userAge userIncome userCgpa now s in
  (3 <= List.length (eligibilityChecks r) <= 7)%nat
  /\ eligibilityChecks r <> []
  /\ exists n : Z, (0 <= n <= 100)%Z /\ matchPercentage r = Fin (inject_Z n).
Proof.
  intros r. pose proof (evaluate_checks_length p userAge userIncome userCgpa
                          now s) as Hlen. fold r in Hlen.
  split; [exact Hlen |]. split.
  - intros E. rewrite E in Hlen. simpl in Hlen. lia.
  - destruct (evaluate_matchPercentage p userAge userIncome userCgpa now s)
      as [Hv Hb]. fold r in Hv, Hb.
    eexists. split; [exact Hb | exact Hv].
Qed.

(** The expression of the code has no case of its own for an empty
    trace (there 0/0 is [NaN]); by [evaluate_checks_length] no evaluation
    has one. *)
Lemma match_percentage_of_no_checks :
  match_percentage [] = NaN /\ match_percentage [] <> ofZ 100.
Proof. split; [vm_compute; reflexivity | vm_compute; discriminate]. Qed.

(** C2. For every evaluation the match percentage is
    round(100 × passed / reported), the nearest integer with a half
    rounding up; and an evaluation that reported no check would have a
    match percentage of 100.  (At least three checks are always reported,
    so that case does not arise.) *)
Theorem matchPercentage_is_rounded_share
    (p : Profile) (userAge : Z) (userIncome userCgpa : number)
    (now : Date) (s : Scholarship) :
  let r := evaluate p userAge userIncome userCgpa now s in
  let reported_count := List.length (eligibilityChecks r) in
  let passed_count := List.length (filter passed (eligibilityChecks r)) in
  matchPercentage r = Fin (inject_Z (nearest_percent passed_count
                                                     reported_count))
  /\ (reported_count = 0%nat -> matchPercentage r = Fin 100)
  /\ (3 <= reported_count)%nat.
Proof.
  intros r reported_count passed_count.
  pose proof (evaluate_checks_length p userAge userIncome userCgpa now s)
    as Hlen. fold r in Hlen. fold reported_count in Hlen.
  split; [apply evaluate_matchPercentage |].
  split; [intros H; exfalso; lia | apply Hlen].
Qed.

(** Two of three checks passed: 67. *)
Lemma matchPercentage_is_rounded_share_witness :
  let s := mkScholarship 1 (js "Merit") None (js "Trust") (js "1000")
             example_criteria None [] (mkContactInfo None None None) true in
  let r := evaluate example_profile 20 (ofZ 0) (ofZ 5)
                    (mkDate 0 1970 0 1) s in
  List.length (eligibilityChecks r) = 3%nat
  /\ List.length (filter passed (eligibilityChecks r)) = 2%nat
  /\ matchPercentage r = Fin 67.
Proof.
  intros s r.
  assert (H3 : List.length (eligibilityChecks r) = 3%nat) by reflexivity.
  assert (H2 : List.length (filter passed (eligibilityChecks r)) = 2%nat)
    by (vm_compute; reflexivity).
  split; [exact H3 |]. split; [exact H2 |].
  destruct (matchPercentage_is_rounded_share
              example_profile 20 (ofZ 0) (ofZ 5) (mkDate 0 1970 0 1) s)
    as (Hv & _ & _).
  fold r in Hv. rewrite Hv, H3, H2. reflexivity.
Defined.

Example nearest_percent_four_of_seven : nearest_percent 4 7 = 57%Z.
Proof. reflexivity. Qed.

(* ================================================================== *)
(** ** Sorting *)

Section SortFacts.

Variable A : Type.
Variable comparefn : A -> A -> number.

Local Abbreviation after := (goes_after comparefn).

Lemma insert_perm (x : A) (l : list A) :
  Permutation (x :: l) (insert comparefn x l).
Proof.
  induction l as [| y l IH]; simpl; [reflexivity |].
  destruct (after x y); [| reflexivity].
  rewrite perm_swap. apply perm_skip. exact IH.
Qed.

Lemma sort_perm (l : list A) : Permutation l (sort comparefn l).
Proof.
  induction l as [| x l IH]; simpl; [constructor |].
  rewrite <- insert_perm. apply perm_skip. exact IH.
Qed.

(** Elements the comparator orders consistently. *)
Variable P : A -> Prop.
Hypothesis after_asym :
  forall x y, P x -> P y -> after x y = true -> after y x = false.
Hypothesis stays_trans :
  forall x y z, P x -> P y -> P z ->
    after x y = false -> after y z = false -> after x z = false.

Lemma insert_Forall (Q : A -> Prop) (x : A) (l : list A) :
  Q x -> Forall Q l -> Forall Q (insert comparefn x l).
Proof.
  intros Hx Hl. apply (Permutation_Forall (insert_perm x l)).
  constructor; assumption.
Qed.

Lemma sort_Forall (Q : A -> Prop) (l : list A) :
  Forall Q l -> Forall Q (sort comparefn l).
Proof. apply Permutation_Forall, sort_perm. Qed.

Lemma insert_sorted (x : A) (l : list A) :
  P x -> Forall P l -> StronglySorted (stays comparefn) l ->
  StronglySorted (stays comparefn) (insert comparefn x l).
Proof.
  intros Hx Hl Hs. induction Hs as [| y l Hs IH Hy]; simpl.
  - constructor; constructor.
  - inversion Hl as [| ? ? Py Pl]; subst.
    destruct (after x y) eqn:E.
    + constructor; [apply IH; exact Pl |].
      apply insert_Forall; [apply after_asym; assumption | exact Hy].
    + constructor; [constructor; assumption |].
      constructor; [exact E |].
      rewrite Forall_forall in *. intros z Hz.
      apply (stays_trans Hx Py (Pl z Hz) E (Hy z Hz)).
Qed.

Lemma sort_sorted (l : list A) :
  Forall P l -> StronglySorted (stays comparefn) (sort comparefn l).
Proof.
  induction 1 as [| x l Hx Hl IH]; simpl; [constructor |].
  apply insert_sorted; [exact Hx | apply sort_Forall; exact Hl | exact IH].
Qed.

(** The sort does not reorder what a test [f] selects, when the
    comparator never puts one selected element after another. *)
Variable f : A -> bool.
Hypothesis selected_tie :
  forall x y, P x -> P y -> f x = true -> f y = true -> after x y = false.

Lemma insert_filter (x : A) (l : list A) :
  P x -> Forall P l ->
  filter f (insert comparefn x l) = filter f (x :: l).
Proof.
  intros Hx Hl. induction Hl as [| y l Py Pl IH]; [reflexivity |].
  cbn [insert]. destruct (after x y) eqn:E; [| reflexivity].
  cbn [filter] in *. rewrite IH.
  destruct (f x) eqn:Fx, (f y) eqn:Fy; try reflexivity.
  rewrite (selected_tie Hx Py Fx Fy) in E. discriminate.
Qed.

Lemma sort_filter (l : list A) :
  Forall P l -> filter f (sort comparefn l) = filter f l.
Proof.
  induction 1 as [| x l Hx Hl IH]; [reflexivity |].
  cbn [sort]. rewrite insert_filter; [| exact Hx | apply sort_Forall; exact Hl].
  cbn [filter]. rewrite IH. reflexivity.
Qed.

End SortFacts.

(* ================================================================== *)
(** ** The ranking *)

Lemma In_percents (z : Z) : (0 <= z <= 100)%Z -> In z percents.
Proof.
  intros H. unfold percents. rewrite <- (Z2Nat.id z) by lia.
  apply in_map, in_seq. lia.
Qed.

Lemma difference_sign_table :
  forallb (fun x =>
    forallb (fun y =>
      Bool.eqb (lt (ofZ 0) (sub (Fin (inject_Z y)) (Fin (inject_Z x))))
               (x <? y)%Z) percents) percents = true.
Proof. vm_compute. reflexivity. Qed.

Lemma difference_sign (x y : Z) :
  (0 <= x <= 100)%Z -> (0 <= y <= 100)%Z ->
  lt (ofZ 0) (sub (Fin (inject_Z y)) (Fin (inject_Z x))) = (x <? y)%Z.
Proof.
  intros Hx Hy. pose proof difference_sign_table as T.
  rewrite forallb_forall in T. specialize (T x (In_percents Hx)).
  rewrite forallb_forall in T. specialize (T y (In_percents Hy)).
  apply eqb_prop in T. exact T.
Qed.

Lemma lt_integers (x y : Z) :
  lt (Fin (inject_Z x)) (Fin (inject_Z y)) = (x <? y)%Z.
Proof.
  unfold lt, Qle_bool, inject_Z. cbn [Qnum Qden].
  rewrite !Z.mul_1_r. symmetry. apply Z.ltb_antisym.
Qed.

Lemma goes_after_results (a b : EligibilityResult) :
  percent_ok a -> percent_ok b ->
  goes_after compare_results a b
  = (negb (isEligible a) && isEligible b)
    || (Bool.eqb (isEligible a) (isEligible b)
        && lt (matchPercentage a) (matchPercentage b)).
Proof.
  intros (x & Hx & Ea) (y & Hy & Eb).
  unfold goes_after, compare_results. rewrite Ea, Eb.
  rewrite lt_integers.
  destruct (isEligible a), (isEligible b); cbn [andb negb orb Bool.eqb].
  - apply difference_sign; assumption.
  - reflexivity.
  - reflexivity.
  - apply difference_sign; assumption.
Qed.

Lemma goes_after_asym (a b : EligibilityResult) :
  percent_ok a -> percent_ok b ->
  goes_after compare_results a b = true ->
  goes_after compare_results b a = false.
Proof.
  intros Ha Hb. rewrite !goes_after_results by assumption.
  destruct Ha as (x & _ & ->), Hb as (y & _ & ->). rewrite !lt_integers.
  destruct (isEligible a), (isEligible b); cbn [andb negb orb Bool.eqb];
    try congruence; rewrite !Z.ltb_lt, !Z.ltb_ge; lia.
Qed.

Lemma stays_trans_results (a b c : EligibilityResult) :
  percent_ok a -> percent_ok b -> percent_ok c ->
  goes_after compare_results a b = false ->
  goes_after compare_results b c = false ->
  goes_after compare_results a c = false.
Proof.
  intros Ha Hb Hc. rewrite !goes_after_results by assumption.
  destruct Ha as (x & _ & ->), Hb as (y & _ & ->), Hc as (z & _ & ->).
  rewrite !lt_integers.
  destruct (isEligible a), (isEligible b), (isEligible c);
    cbn [andb negb orb Bool.eqb]; try congruence;
    rewrite !Z.ltb_ge; lia.
Qed.

Lemma stays_precedes (a b : EligibilityResult) :
  percent_ok a -> percent_ok b ->
  stays compare_results a b -> precedes a b.
Proof.
  intros Ha Hb. unfold stays, precedes.
  rewrite goes_after_results by assumption.
  destruct (isEligible a), (isEligible b); cbn [andb negb orb Bool.eqb];
    intros H; split; congruence.
Qed.

Lemma same_key_tie (e : bool) (m : number) (a b : EligibilityResult) :
  percent_ok a -> percent_ok b ->
  has_key e m a = true -> has_key e m b = true ->
  goes_after compare_results a b = false.
Proof.
  intros Ha Hb. rewrite goes_after_results by assumption.
  destruct Ha as (x & _ & Ea), Hb as (y & _ & Eb).
  unfold has_key. rewrite Ea, Eb, lt_integers, !andb_true_iff.
  intros [Ka Ma] [Kb Mb]. apply eqb_prop in Ka, Kb.
  rewrite <- Ka, <- Kb.
  destruct m as [q | | |]; try discriminate. cbn [strict_eq] in Ma, Mb.
  apply Qeq_bool_eq in Ma, Mb.
  assert (inject_Z x == inject_Z y)%Q as E by (rewrite <- Ma, <- Mb; reflexivity).
  unfold Qeq, inject_Z in E. cbn [Qnum Qden] in E.
  destruct e; cbn [andb negb orb Bool.eqb]; apply Z.ltb_ge; lia.
Qed.

Lemma StronglySorted_weaken (A : Type) (P : A -> Prop) (R R' : A -> A -> Prop)
    (l : list A) :
  (forall a b, P a -> P b -> R a b -> R' a b) ->
  Forall P l -> StronglySorted R l -> StronglySorted R' l.
Proof.
  intros HR HP HS. induction HS as [| a l HS IH Ha]; constructor.
  - apply IH. inversion HP; assumption.
  - inversion HP as [| ? ? Pa Pl]; subst.
    rewrite Forall_forall in *. intros b Hb.
    apply HR; [exact Pa | apply Pl; exact Hb | apply Ha; exact Hb].
Qed.

Lemma sort_ranking (l : list EligibilityResult) :
  Forall percent_ok l -> ranking l (sort compare_results l).
Proof.
  intros Hl. split; [apply sort_perm |]. split.
  - apply (StronglySorted_weaken (P := percent_ok)
             (R := stays compare_results)).
    + apply stays_precedes.
    + apply sort_Forall; exact Hl.
    + apply sort_sorted with (P := percent_ok);
        [apply goes_after_asym | apply stays_trans_results | exact Hl].
  - intros e m. apply sort_filter with (P := percent_ok); [| exact Hl].
    apply same_key_tie.
Qed.

(* ================================================================== *)
(** ** The handler *)

Section Request.

Variable clock : nat -> Date.
Variable users : list User.
Variable scholarships : list Scholarship.

Lemma for_each_evaluate p userAge userIncome userCgpa l w :
  for_each (fun s => now <- newDate clock ;;
                     ret (evaluate p userAge userIncome userCgpa now s)) l w
  = (loop_results clock p userAge userIncome userCgpa (ticks w) l,
     mkWorld (ticks w + List.length l) (queries w)).
Proof.
  revert w. induction l as [| s l IH]; intros w.
  - simpl. unfold ret. destruct w. simpl. rewrite Nat.add_0_r. reflexivity.
  - cbn [for_each loop_results List.length]. unfold bind at 1.
    unfold bind at 1. unfold newDate at 1. unfold ret at 1.
    unfold bind at 1. rewrite IH. unfold ret. cbn [ticks queries].
    rewrite Nat.add_succ_r. reflexivity.
Qed.

Lemma loop_results_length p userAge userIncome userCgpa n l :
  List.length (loop_results clock p userAge userIncome userCgpa n l)
  = List.length l.
Proof.
  revert n. induction l as [| s l IH]; intros n; simpl;
    [| rewrite IH]; reflexivity.
Qed.

Lemma loop_results_summaries p userAge userIncome userCgpa n l :
  map scholarship (loop_results clock p userAge userIncome userCgpa n l)
  = map summary l.
Proof.
  revert n. induction l as [| s l IH]; intros n; simpl;
    [| rewrite IH]; reflexivity.
Qed.

Lemma loop_results_In p userAge userIncome userCgpa n l s :
  In s l ->
  exists k, In (evaluate p userAge userIncome userCgpa (clock k) s)
               (loop_results clock p userAge userIncome userCgpa n l).
Proof.
  revert n. induction l as [| s' l IH]; intros n Hin; [destruct Hin |].
  destruct Hin as [-> | Hin].
  - exists n. left. reflexivity.
  - destruct (IH (S n) Hin) as [k Hk]. exists k. right. exact Hk.
Qed.

Lemma loop_results_percent_ok p userAge userIncome userCgpa n l :
  Forall percent_ok (loop_results clock p userAge userIncome userCgpa n l).
Proof.
  revert n. induction l as [| s l IH]; intros n; simpl; constructor.
  - destruct (evaluate_matchPercentage p userAge userIncome userCgpa
                (clock n) s) as [Hv Hb].
    eexists. split; [exact Hb | exact Hv].
  - apply IH.
Qed.

(** The response to such a request. *)
Lemma check_eligibility_complete e u p w :
  complete_request users e u p ->
  exists userAge n,
    let userIncome := parseIncome (familyIncome p) in
    let userCgpa := or_else (parseFloat (cgpa p)) (ofZ 0) in
    let active := filter isActive scholarships in
    let rs := loop_results clock p userAge userIncome userCgpa n active in
    let sorted := sort compare_results rs in
    fst (check_eligibility clock users scholarships (Some e) w)
    = mkResponse 200
        (RankedBody true (List.length active)
           (List.length (filter isEligible sorted)) sorted
           (mkSnapshot (display_name u p) userCgpa (currentEducation p)
              (fieldOfStudy p) userIncome userAge (gender p) (category p))).
Proof.
  intros (He & Hu & Hp & Hc).
  destruct e as [| c0 e]; [congruence |].
  unfold check_eligibility. unfold bind at 1. unfold User_findOne at 1.
  rewrite Hu, Hp, Hc. cbn [negb].
  unfold bind at 1.
  destruct (calculateAge clock (dateOfBirth p) _) as [userAge w1].
  exists userAge, (ticks w1).
  unfold bind at 1. unfold Scholarship_find_active at 1.
  unfold bind at 1. rewrite for_each_evaluate. reflexivity.
Qed.

End Request.

(** C4. When the user's profile has [isProfileComplete = false], the
    handler answers with status 200 and the body
    [{success: true, message, eligibleScholarships: [], incompleteProfile: true}],
    whatever the scholarship collection holds.  The only query sent is the
    user lookup and the clock is not read: no scholarship is fetched or
    evaluated. *)
Theorem incomplete_profile_response
    (clock : nat -> Date) (users : list User) (scholarships : list Scholarship)
    (e : JSString) (u : User) (p : Profile) (w : World) :
  e <> [] ->
  find (fun u' => jsstring_eqb (email u') e) users = Some u ->
  profile u = Some p ->
  isProfileComplete p = false ->
  check_eligibility clock users scholarships (Some e) w
  = (mkResponse 200
       (IncompleteBody true
          "Please complete your profile to check eligibility" [] true),
     mkWorld (ticks w) (queries w ++ [UserFindOne e])).
Proof.
  intros He Hu Hp Hc. destruct e as [| c0 e]; [congruence |].
  unfold check_eligibility, bind, User_findOne.
  rewrite Hu, Hp, Hc. reflexivity.
Qed.

(** A user without a [profile] object gets the same answer. *)
Lemma missing_profile_response
    (clock : nat -> Date) (users : list User) (scholarships : list Scholarship)
    (e : JSString) (u : User) (w : World) :
  e <> [] ->
  find (fun u' => jsstring_eqb (email u') e) users = Some u ->
  profile u = None ->
  fst (check_eligibility clock users scholarships (Some e) w)
  = incomplete_response.
Proof.
  intros He Hu Hp. destruct e as [| c0 e]; [congruence |].
  unfold check_eligibility, bind, User_findOne.
  rewrite Hu, Hp. reflexivity.
Qed.

(** *** A small database for the examples *)

Lemma incomplete_profile_response_witness :
  check_eligibility (fun _ => noon_2_nov_2026) [asha false]
                    [expired_scholarship] (Some (js "asha@example.org")) fresh
  = (mkResponse 200
       (IncompleteBody true
          "Please complete your profile to check eligibility" [] true),
     mkWorld 0 [UserFindOne (js "asha@example.org")]).
Proof.
  apply (@incomplete_profile_response (fun _ => noon_2_nov_2026)
           [asha false] [expired_scholarship] (js "asha@example.org")
           (asha false) (asha_profile false) fresh).
  - discriminate.
  - reflexivity.
  - reflexivity.
  - reflexivity.
Defined.

(** C6. A scholarship whose [applicationDeadline] exists and lies strictly
    before "now" is evaluated like any other (its checks are reported) and
    its result has [deadlineStatus = "Expired"] and [isEligible = false],
    whatever the checks say.  In the response to a complete profile every
    active scholarship, expired or not, has its result: an expired one is
    among the results, marked Expired and not eligible. *)
Theorem expired_deadline_is_reported_ineligible :
  (forall (p : Profile) (userAge : Z) (userIncome userCgpa : number)
          (now : Date) (s : Scholarship) (d : Date),
      applicationDeadline s = Some d ->
      (getTime d < getTime now)%Z ->
      let r := evaluate p userAge userIncome userCgpa now s in
      deadlineStatus r = "Expired"%string
      /\ isEligible r = false
      /\ scholarship r = summary s
      /\ eligibilityChecks r
         = trace p userAge userIncome userCgpa (eligibilityCriteria s))
  /\ (forall (clock : nat -> Date) (users : list User)
             (scholarships : list Scholarship)
             (e : JSString) (u : User) (p : Profile) (w : World)
             (s : Scholarship) (d : Date),
        complete_request users e u p ->
        In s scholarships ->
        isActive s = true ->
        applicationDeadline s = Some d ->
        (forall n, getTime d < getTime (clock n))%Z ->
        exists total eligible results snapshot,
          fst (check_eligibility clock users scholarships (Some e) w)
          = mkResponse 200 (RankedBody true total eligible results snapshot)
          /\ List.length results
             = List.length (filter isActive scholarships)
          /\ exists r, In r results
                       /\ scholarship r = summary s
                       /\ deadlineStatus r = "Expired"%string
                       /\ isEligible r = false).
Proof.
  assert (Hone : forall p userAge userIncome userCgpa now s d,
             applicationDeadline s = Some d ->
             (getTime d < getTime now)%Z ->
             let r := evaluate p userAge userIncome userCgpa now s in
             deadlineStatus r = "Expired"%string /\ isEligible r = false
             /\ scholarship r = summary s).
  { intros p userAge userIncome userCgpa now s d Hd Hlt r. subst r.
    unfold evaluate, deadline_passed. rewrite Hd.
    apply Z.ltb_lt in Hlt. rewrite Hlt. repeat split. }
  split.
  - intros p userAge userIncome userCgpa now s d Hd Hlt r.
    destruct (Hone p userAge userIncome userCgpa now s d Hd Hlt)
      as (H1 & H2 & H3).
    repeat split; try assumption. apply evaluate_checks.
  - intros clock users scholarships e u p w s d Hreq Hin Hact Hd Hpast.
    destruct (check_eligibility_complete clock scholarships w Hreq)
      as (userAge & n & Hresp).
    cbv zeta in Hresp. do 4 eexists. split; [exact Hresp |]. split.
    + rewrite <- (Permutation_length (sort_perm compare_results _)).
      apply loop_results_length.
    + assert (Hs : In s (filter isActive scholarships))
        by (apply filter_In; split; assumption).
      destruct (loop_results_In clock p userAge
                  (parseIncome (familyIncome p))
                  (or_else (parseFloat (cgpa p)) (ofZ 0)) n _ _ Hs)
        as [k Hk].
      eexists. split.
      * apply (Permutation_in _ (sort_perm compare_results _)). exact Hk.
      * destruct (Hone p userAge (parseIncome (familyIncome p))
                    (or_else (parseFloat (cgpa p)) (ofZ 0)) (clock k) s d
                    Hd (Hpast k)) as (H1 & H2 & H3).
        repeat split; assumption.
Qed.

(** Asha meets every criterion of the expired scholarship, and still is
    not eligible for it. *)
Lemma expired_deadline_is_reported_ineligible_witness :
  let r := evaluate (asha_profile true) 19 (ofZ 500000) (ofZ 9)
                    noon_2_nov_2026 expired_scholarship in
  let clock := fun _ : nat => noon_2_nov_2026 in
  (map outcome (eligibilityChecks r)
     = [("CGPA", true); ("Family Income", true); ("Age", true)]%string
   /\ deadlineStatus r = "Expired"%string
   /\ isEligible r = false)
  /\ exists total eligible results snapshot,
       fst (check_eligibility clock [asha true] [expired_scholarship]
              (Some (js "asha@example.org")) fresh)
       = mkResponse 200 (RankedBody true total eligible results snapshot)
       /\ List.length results
          = List.length (filter isActive [expired_scholarship])
       /\ exists r', In r' results
                     /\ scholarship r' = summary expired_scholarship
                     /\ deadlineStatus r' = "Expired"%string
                     /\ isEligible r' = false.
Proof.
  intros r clock.
  destruct expired_deadline_is_reported_ineligible as [H1 H2]. split.
  - split; [vm_compute; reflexivity |].
    destruct (H1 (asha_profile true) 19%Z (ofZ 500000) (ofZ 9)
                noon_2_nov_2026 expired_scholarship end_of_2024 eq_refl)
      as (Hs & He & _).
    + simpl. lia.
    + split; assumption.
  - apply (H2 clock [asha true] [expired_scholarship]
              (js "asha@example.org") (asha true) (asha_profile true) fresh
              expired_scholarship end_of_2024).
    + repeat split; try reflexivity. discriminate.
    + left. reflexivity.
    + reflexivity.
    + reflexivity.
    + intros n. simpl. lia.
Defined.

(** "Strictly before": a deadline equal to now is still active. *)
Example deadline_now_is_active :
  let s := mkScholarship 7 (js "Merit Scholarship") None (js "Tech Foundation")
             (js "50000") open_criteria (Some noon_2_nov_2026) []
             (mkContactInfo None None None) true in
  let r := evaluate (asha_profile true) 19 (ofZ 500000) (ofZ 9)
                    noon_2_nov_2026 s in
  deadlineStatus r = "Active"%string /\ isEligible r = true.
Proof. split; vm_compute; reflexivity. Qed.

(** The whole response for that request: one result, expired, not
    eligible, with all three checks passed and a match of 100. *)
Example expired_scholarship_response :
  let out := check_eligibility (fun _ => noon_2_nov_2026) [asha true]
               [expired_scholarship] (Some (js "asha@example.org")) fresh in
  fst out
  = mkResponse 200
      (RankedBody true 1 0
         [evaluate (asha_profile true) 19 (ofZ 500000) (ofZ 9)
                   noon_2_nov_2026 expired_scholarship]
         (mkSnapshot (js "Asha") (ofZ 9) (Some (js "Undergraduate"))
            (Some (js "Engineering")) (ofZ 500000) 19 (Some (js "Female"))
            (Some (js "General"))))
  /\ snd out
     = mkWorld 2 [UserFindOne (js "asha@example.org"); ScholarshipFindActive].
Proof. split; vm_compute; reflexivity. Qed.

(** C3. The sort of the results is a stable sort by the key (eligible
    first, then match percentage descending): its output is a permutation
    of its input in which no ineligible result stands before an eligible
    one, within each group no result stands before one of greater match
    percentage, and results of equal (isEligible, matchPercentage) keep
    their input order.  This holds for every list of results whose match
    percentages are integers from 0 to 100, hence for the results of every
    request, which are one per active scholarship.  For A (ineligible,
    90), B (eligible, 60), C (eligible, 80) in this order the output is
    C, B, A. *)
Theorem ranking_is_stable_and_eligible_first :
  (forall l : list EligibilityResult,
      Forall percent_ok l -> ranking l (sort compare_results l))
  /\ (forall (clock : nat -> Date) (users : list User)
             (scholarships : list Scholarship)
             (e : JSString) (u : User) (p : Profile) (w : World),
        complete_request users e u p ->
        exists unsorted total eligible results snapshot,
          fst (check_eligibility clock users scholarships (Some e) w)
          = mkResponse 200 (RankedBody true total eligible results snapshot)
          /\ map scholarship unsorted
             = map summary (filter isActive scholarships)
          /\ ranking unsorted results)
  /\ (forall A B C : EligibilityResult,
        isEligible A = false -> matchPercentage A = ofZ 90 ->
        isEligible B = true -> matchPercentage B = ofZ 60 ->
        isEligible C = true -> matchPercentage C = ofZ 80 ->
        sort compare_results [A; B; C] = [C; B; A]).
Proof.
  split; [exact sort_ranking |]. split.
  - intros clock users scholarships e u p w Hreq.
    destruct (check_eligibility_complete clock scholarships w Hreq)
      as (userAge & n & Hresp).
    cbv zeta in Hresp.
    exists (loop_results clock p userAge (parseIncome (familyIncome p))
              (or_else (parseFloat (cgpa p)) (ofZ 0)) n
              (filter isActive scholarships)).
    do 4 eexists. split; [exact Hresp |]. split.
    + apply loop_results_summaries.
    + apply sort_ranking, loop_results_percent_ok.
  - intros [sa ea da ca ma] [sb eb db cb mb] [sc ec dc cc mc].
    cbn [isEligible matchPercentage]. intros -> -> -> -> -> ->.
    vm_compute. reflexivity.
Qed.

Lemma ranking_is_stable_and_eligible_first_witness :
  Forall percent_ok [result_A; result_B; result_C]
  /\ sort compare_results [result_A; result_B; result_C]
     = [result_C; result_B; result_A]
  /\ ranking [result_A; result_B; result_C]
             (sort compare_results [result_A; result_B; result_C]).
Proof.
  assert (H : Forall percent_ok [result_A; result_B; result_C]).
  { repeat constructor.
    - exists 90%Z. split; [lia | reflexivity].
    - exists 60%Z. split; [lia | reflexivity].
    - exists 80%Z. split; [lia | reflexivity]. }
  destruct ranking_is_stable_and_eligible_first as (Hsort & _ & Hex).
  split; [exact H |]. split.
  - apply Hex; reflexivity.
  - apply Hsort. exact H.
Defined.

(** Equal keys keep their input order: two eligible results at 80. *)
Example equal_keys_keep_order :
  let first := mkResult (summary expired_scholarship) true "Active" [] (ofZ 80) in
  let second := mkResult (summary expired_scholarship) true "Expired" [] (ofZ 80) in
  sort compare_results [result_A; first; second] = [first; second; result_A].
Proof. vm_compute. reflexivity. Qed.

(* ================================================================== *)
(** * Further properties of the code *)

(** ** [parseIncome] *)

Lemma strip_currency_idempotent (s : JSString) :
  strip_currency (strip_currency s) = strip_currency s.
Proof.
  unfold strip_currency. induction s as [| c s IH]; [reflexivity |].
  cbn [filter].
  destruct (negb ((c =? rupee)%N || (c =? comma)%N || is_space c)) eqn:E;
    [| exact IH].
  cbn [filter]. rewrite E, IH. reflexivity.
Qed.

Lemma parseIncome_of_clean (s : JSString) :
  parseIncome (Some s) = income_of_clean (strip_currency s).
Proof. destruct s as [| c s]; [vm_compute |]; reflexivity. Qed.

(** X1. Rupee signs, commas and white space anywhere in the text do not
    change the income: the text and its cleaned form give the same
    number. *)
Theorem parseIncome_ignores_currency_marks (s : JSString) :
  parseIncome (Some s) = parseIncome (Some (strip_currency s)).
Proof.
  rewrite !parseIncome_of_clean, strip_currency_idempotent. reflexivity.
Qed.

(** X2. A text whose cleaned form has no hyphen and names neither lakh nor
    crore never gives [NaN]: it gives what [parseFloat] reads from it, or
    0 when that is [NaN] or zero. *)
Theorem parseIncome_plain_is_guarded (s : JSString) :
  includes (strip_currency s) (js "-") = false ->
  includes (toLowerCase (strip_currency s)) (js "lakh") = false ->
  includes (toLowerCase (strip_currency s)) (js "crore") = false ->
  parseIncome (Some s) <> NaN
  /\ parseIncome (Some s)
     = or_else (parseFloat (Some (strip_currency s))) (ofZ 0).
Proof.
  intros Hh Hl Hc. rewrite parseIncome_of_clean. unfold income_of_clean.
  rewrite Hh, Hl, Hc. split; [apply or_else_zero_not_NaN | reflexivity].
Qed.

Lemma parseIncome_plain_is_guarded_witness :
  parseIncome (Some (js "Rs 4,50,000")) <> NaN
  /\ parseIncome (Some (js "Rs 4,50,000")) = ofZ 0.
Proof.
  destruct (@parseIncome_plain_is_guarded (js "Rs 4,50,000")
              eq_refl eq_refl eq_refl) as [H1 H2].
  split; [exact H1 |]. rewrite H2. vm_compute. reflexivity.
Defined.

(** X3. A text whose cleaned form begins with a hyphen, such as a negative
    amount, gives [NaN]: it is read as a range whose lower end is
    empty. *)
Theorem parseIncome_leading_hyphen (s rest : JSString) :
  strip_currency s = hyphen :: rest ->
  parseIncome (Some s) = NaN.
Proof.
  intros H. rewrite parseIncome_of_clean, H. unfold income_of_clean.
  replace (includes (hyphen :: rest) (js "-")) with true by reflexivity.
  cbn [split]. replace (hyphen =? hyphen)%N with true by reflexivity.
  cbn [nth_error]. reflexivity.
Qed.

Lemma parseIncome_leading_hyphen_witness :
  parseIncome (Some (rupee :: js " -5000")) = NaN.
Proof.
  apply (@parseIncome_leading_hyphen (rupee :: js " -5000") (js "5000")).
  reflexivity.
Defined.

(** The hyphen is looked for before the unit words, so the example of the
    code's own comment, "5-10 lakhs", is the mean of 5 and 10. *)
Example parseIncome_range_of_lakhs :
  parseIncome (Some (js "5-10 lakhs")) = toDouble (15 # 2).
Proof. vm_compute. reflexivity. Qed.

(** ** One evaluation *)

(** Eligibility as a conjunction, for use below. *)
Lemma eligible_iff_passed_and_active
    p userAge userIncome userCgpa now s :
  let r := evaluate p userAge userIncome userCgpa now s in
  isEligible r = true
  <-> Forall (fun ch => passed ch = true) (eligibilityChecks r)
      /\ deadlineStatus r = "Active"%string.
Proof.
  intros r. subst r. rewrite evaluate_checks. unfold evaluate.
  cbn [isEligible deadlineStatus].
  rewrite run_checks_isEligible, Forall_forall, <- forallb_forall.
  destruct (deadline_passed s now); split.
  - discriminate.
  - intros [_ H]. discriminate.
  - intros H. split; [exact H | reflexivity].
  - intros [H _]. exact H.
Qed.

(** What the trace says about one criterion. *)
Lemma outcome_in_trace p userAge userIncome userCgpa now s n b :
  In (n, b)
     (map outcome
          (eligibilityChecks (evaluate p userAge userIncome userCgpa now s)))
  <-> In n all_criteria
      /\ constrained (eligibilityCriteria s) n = true
      /\ b = satisfies p userAge userIncome userCgpa (eligibilityCriteria s) n.
Proof.
  rewrite evaluate_checks, trace_outcomes, in_map_iff. split.
  - intros (n' & E & Hin). injection E as -> <-.
    apply filter_In in Hin. destruct Hin as [Hin Hc]. auto.
  - intros (Hin & Hc & ->). exists n. split; [reflexivity |].
    apply filter_In. auto.
Qed.

Lemma all_passed_count (l : list EligibilityCheck) :
  List.length (filter passed l) = List.length l
  <-> Forall (fun ch => passed ch = true) l.
Proof.
  induction l as [| ch l IH]; simpl.
  - split; [constructor | reflexivity].
  - pose proof (passed_count_le l) as Hle.
    destruct (passed ch) eqn:E; simpl; split; intros H.
    + constructor; [exact E | apply IH; lia].
    + inversion H; subst. f_equal. apply IH. assumption.
    + lia.
    + inversion H; subst. congruence.
Qed.

Lemma full_percent_iff (k n : nat) :
  (3 <= n <= 7)%nat -> (k <= n)%nat ->
  (nearest_percent k n = 100%Z <-> k = n)
  /\ (nearest_percent k n = 0%Z <-> k = 0%nat).
Proof.
  intros Hn Hk.
  assert (n = 3 \/ n = 4 \/ n = 5 \/ n = 6 \/ n = 7)%nat
    as [-> | [-> | [-> | [-> | ->]]]] by lia;
  (assert (k = 0 \/ k = 1 \/ k = 2 \/ k = 3 \/ k = 4 \/ k = 5 \/ k = 6
           \/ k = 7)%nat
     as [-> | [-> | [-> | [-> | [-> | [-> | [-> | ->]]]]]]] by lia);
  try (exfalso; lia);
  (split; split; intros H; try reflexivity; try discriminate H).
Qed.

Lemma Fin_inject_Z_inj (x y : Z) :
  Fin (inject_Z x) = Fin (inject_Z y) <-> x = y.
Proof.
  split; [| intros ->; reflexivity].
  intros H. injection H as H. exact H.
Qed.

(** X4. The match percentage of an evaluation is 100 exactly when every
    reported check passed, and 0 exactly when none did.  So an eligible
    result always shows 100, and a result that shows 100 and whose
    deadline is active is eligible. *)
Theorem full_match_iff_all_passed
    (p : Profile) (userAge : Z) (userIncome userCgpa : number)
    (now : Date) (s : Scholarship) :
  let r := evaluate p userAge userIncome userCgpa now s in
  (matchPercentage r = Fin 100
   <-> Forall (fun ch => passed ch = true) (eligibilityChecks r))
  /\ (matchPercentage r = Fin 0
      <-> Forall (fun ch => passed ch = false) (eligibilityChecks r))
  /\ (isEligible r = true -> matchPercentage r = Fin 100)
  /\ (matchPercentage r = Fin 100 -> deadlineStatus r = "Active"%string ->
      isEligible r = true).
Proof.
  intros r.
  destruct (evaluate_matchPercentage p userAge userIncome userCgpa now s)
    as [Hv _]. fold r in Hv.
  pose proof (evaluate_checks_length p userAge userIncome userCgpa now s)
    as Hlen. fold r in Hlen.
  pose proof (passed_count_le (eligibilityChecks r)) as Hle.
  destruct (full_percent_iff Hlen Hle) as [H100 H0].
  pose proof (eligible_iff_passed_and_active
                p userAge userIncome userCgpa now s) as Hiff.
  cbv zeta in Hiff. fold r in Hiff.
  assert (Hfull : matchPercentage r = Fin 100
                  <-> Forall (fun ch => passed ch = true)
                             (eligibilityChecks r)).
  { rewrite Hv. change (Fin 100) with (Fin (inject_Z 100)).
    rewrite Fin_inject_Z_inj, H100. apply all_passed_count. }
  split; [exact Hfull |]. split.
  - rewrite Hv. change (Fin 0) with (Fin (inject_Z 0)).
    rewrite Fin_inject_Z_inj, H0. clear.
    induction (eligibilityChecks r) as [| ch l IH]; simpl.
    + split; [constructor | reflexivity].
    + destruct (passed ch) eqn:E; simpl; split; intros H.
      * discriminate.
      * inversion H; congruence.
      * constructor; [exact E | apply IH; exact H].
      * inversion H; subst. apply IH. assumption.
  - split.
    + intros He. apply Hfull, Hiff. exact He.
    + intros Hm Ha. apply Hiff. split; [apply Hfull; exact Hm | exact Ha].
Qed.

Lemma full_match_iff_all_passed_witness :
  let r := evaluate (asha_profile true) 19 (ofZ 500000) (ofZ 9)
                    noon_2_nov_2026 open_scholarship in
  isEligible r = true /\ matchPercentage r = Fin 100.
Proof.
  intros r.
  assert (He : isEligible r = true) by (vm_compute; reflexivity).
  split; [exact He |].
  destruct (full_match_iff_all_passed (asha_profile true) 19 (ofZ 500000)
              (ofZ 9) noon_2_nov_2026 open_scholarship) as (_ & _ & H & _).
  exact (H He).
Defined.

Lemma array_includes_member (xs : list JSString) (v : option JSString) :
  array_includes xs v = true <-> member v xs.
Proof.
  unfold member. destruct v as [x |].
  - rewrite array_includes_In. split.
    + intros H. exists x. auto.
    + intros (y & E & H). injection E as ->. exact H.
  - simpl. split; [discriminate |]. intros (y & E & _). discriminate.
Qed.

Lemma flag_is_test (b t : bool) (P : Prop) :
  (t = true <-> P) -> (b = t <-> (b = true <-> P)).
Proof. destruct b, t; intuition congruence. Qed.

Lemma set_check_outcome p userAge userIncome userCgpa now s
    (n : string) (b : bool) (allowed : list JSString)
    (v : option JSString) (cond : Prop) :
  In n all_criteria ->
  (constrained (eligibilityCriteria s) n = true <-> cond) ->
  satisfies p userAge userIncome userCgpa (eligibilityCriteria s) n
  = array_includes allowed v ->
  In (n, b) (outcomes (evaluate p userAge userIncome userCgpa now s))
  <-> cond /\ (b = true <-> member v allowed).
Proof.
  intros Hin Hc Hs. unfold outcomes.
  rewrite outcome_in_trace, Hc, Hs.
  rewrite (flag_is_test b (array_includes_member allowed v)).
  tauto.
Qed.

(** X5. A set criterion (Education Level, Field of Study, Gender,
    Category) is reported exactly when the scholarship constrains it, and
    then passes exactly when the profile's value is set and is literally
    one of the allowed strings; an unset value fails. *)
Theorem set_checks_are_membership
    (p : Profile) (userAge : Z) (userIncome userCgpa : number)
    (now : Date) (s : Scholarship) (b : bool) :
  let c := eligibilityCriteria s in
  let r := evaluate p userAge userIncome userCgpa now s in
  (In ("Education Level"%string, b) (outcomes r)
   <-> requiredEducation c <> []
       /\ (b = true <-> member (currentEducation p) (requiredEducation c)))
  /\ (In ("Field of Study"%string, b) (outcomes r)
      <-> requiredFields c <> []
          /\ (b = true <-> member (fieldOfStudy p) (requiredFields c)))
  /\ (In ("Gender"%string, b) (outcomes r)
      <-> (allowedGenders c <> [] /\ ~ In (js "All") (allowedGenders c))
          /\ (b = true <-> member (gender p) (allowedGenders c)))
  /\ (In ("Category"%string, b) (outcomes r)
      <-> allowedCategories c <> []
          /\ (b = true <-> member (category p) (allowedCategories c))).
Proof.
  intros c r. subst r c.
  split; [| split; [| split]].
  - apply set_check_outcome;
      [simpl; tauto | apply nonempty_true | reflexivity].
  - apply set_check_outcome;
      [simpl; tauto | apply nonempty_true | reflexivity].
  - apply set_check_outcome;
      [simpl; tauto | apply constrained_gender | reflexivity].
  - apply set_check_outcome;
      [simpl; tauto | apply nonempty_true | reflexivity].
Qed.

(** An unset gender fails a scholarship for women. *)
Lemma set_checks_are_membership_witness :
  let r := evaluate unset_gender_profile 0 (ofZ 200000) (toDouble (81 # 10))
                    noon_2_nov_2026 women_scholarship in
  In ("Gender"%string, false) (outcomes r).
Proof.
  intros r.
  destruct (set_checks_are_membership unset_gender_profile 0 (ofZ 200000)
              (toDouble (81 # 10)) noon_2_nov_2026 women_scholarship false)
    as (_ & _ & Hg & _).
  apply Hg. split; [split |].
  - discriminate.
  - intros [H | []]. discriminate.
  - split; [discriminate |]. intros (x & E & _). discriminate.
Defined.

(** The match is on the exact string: "female" is not "Female". *)
Example gender_is_case_sensitive :
  array_includes [js "Female"] (Some (js "female")) = false.
Proof. reflexivity. Qed.

(** ** Numeric checks *)

Lemma within_bounds (q a b : Q) :
  negb (lt (Fin q) (Fin a) || gt (Fin q) (Fin b)) = true
  <-> (a <= q /\ q <= b)%Q.
Proof.
  unfold gt, lt. rewrite negb_orb, !negb_involutive, andb_true_iff,
    !Qle_bool_iff. reflexivity.
Qed.

Lemma ofZ_ages_table :
  forallb (fun z => strict_eq (ofZ z) (Fin (inject_Z z))
                    && isFinite (ofZ z)) ages = true.
Proof. vm_compute. reflexivity. Qed.

Lemma ofZ_small (z : Z) :
  (-1000 <= z <= 1000)%Z ->
  exists q, ofZ z = Fin q /\ (q == inject_Z z)%Q.
Proof.
  intros H. pose proof ofZ_ages_table as T.
  rewrite forallb_forall in T.
  assert (Hin : In z ages).
  { unfold ages. apply in_map_iff. exists (Z.to_nat (z + 1000)).
    split; [lia | apply in_seq; lia]. }
  specialize (T z Hin). apply andb_true_iff in T. destruct T as [T1 T2].
  destruct (ofZ z) as [q | | |]; try discriminate.
  exists q. split; [reflexivity |]. apply Qeq_bool_eq. exact T1.
Qed.

(** X6. The bounds of the numeric checks are inclusive.  With finite
    numbers, the CGPA check passes exactly when min <= cgpa <= max, the
    Family Income check exactly when min <= income <= max, and (for an age
    of at most 1000 years either way) the Age check exactly when
    min <= age <= max. *)
Theorem numeric_checks_are_inclusive
    (p : Profile) (userAge : Z) (now : Date) (s : Scholarship)
    (cg inc lo_c hi_c lo_i hi_i lo_a hi_a : Q) :
  let c := eligibilityCriteria s in
  let r := evaluate p userAge (Fin inc) (Fin cg) now s in
  minCgpa c = Fin lo_c -> maxCgpa c = Fin hi_c ->
  minFamilyIncome c = Fin lo_i -> maxFamilyIncome c = Fin hi_i ->
  minAge c = Fin lo_a -> maxAge c = Fin hi_a ->
  (-1000 <= userAge <= 1000)%Z ->
  (In ("CGPA"%string, true) (outcomes r) <-> (lo_c <= cg /\ cg <= hi_c)%Q)
  /\ (In ("Family Income"%string, true) (outcomes r)
      <-> (lo_i <= inc /\ inc <= hi_i)%Q)
  /\ (In ("Age"%string, true) (outcomes r)
      <-> (lo_a <= inject_Z userAge /\ inject_Z userAge <= hi_a)%Q).
Proof.
  intros c r Hlc Hhc Hli Hhi Hla Hha Hage. subst r. unfold outcomes.
  rewrite !outcome_in_trace. fold c.
  change (satisfies p userAge (Fin inc) (Fin cg) c "CGPA")
    with (negb (lt (Fin cg) (minCgpa c) || gt (Fin cg) (maxCgpa c))).
  change (satisfies p userAge (Fin inc) (Fin cg) c "Family Income")
    with (negb (gt (Fin inc) (maxFamilyIncome c)
                || lt (Fin inc) (minFamilyIncome c))).
  change (satisfies p userAge (Fin inc) (Fin cg) c "Age")
    with (negb (lt (ofZ userAge) (minAge c) || gt (ofZ userAge) (maxAge c))).
  rewrite Hlc, Hhc, Hli, Hhi, Hla, Hha.
  destruct (ofZ_small Hage) as (qa & -> & Hq).
  rewrite (orb_comm (gt (Fin inc) (Fin hi_i))).
  split; [| split].
  - rewrite <- within_bounds. simpl. intuition congruence.
  - rewrite <- within_bounds. simpl. intuition congruence.
  - rewrite <- Hq, <- within_bounds. simpl. intuition congruence.
Qed.

Lemma numeric_checks_are_inclusive_witness :
  let r := evaluate (asha_profile true) 19 (Fin 500000) (Fin 9)
                    noon_2_nov_2026 open_scholarship in
  In ("CGPA"%string, true) (outcomes r)
  /\ In ("Family Income"%string, true) (outcomes r)
  /\ In ("Age"%string, true) (outcomes r).
Proof.
  intros r.
  destruct (@numeric_checks_are_inclusive (asha_profile true) 19
              noon_2_nov_2026 open_scholarship 9 500000 6 10 0 999999999
              17 30)
    as (Hc & Hi & Ha);
    try (vm_compute; reflexivity).
  - lia.
  - split; [apply Hc | split; [apply Hi | apply Ha]];
      split; vm_compute; discriminate.
Defined.

(** A bound that is met exactly still passes. *)
Example cgpa_at_the_minimum_passes :
  outcomes (evaluate (asha_profile true) 19 (ofZ 500000) (ofZ 6)
                     noon_2_nov_2026 open_scholarship)
  = [("CGPA", true); ("Family Income", true); ("Age", true)]%string.
Proof. vm_compute. reflexivity. Qed.

Lemma lt_NaN_r (x : number) : lt x NaN = false.
Proof. destruct x; reflexivity. Qed.

(** X7. An income that parsed to [NaN] passes the Family Income check of
    every scholarship, whatever its income band: both comparisons with
    [NaN] are false. *)
Theorem NaN_income_passes_every_band
    (p : Profile) (userAge : Z) (userCgpa : number) (now : Date)
    (s : Scholarship) :
  parseIncome (familyIncome p) = NaN ->
  In ("Family Income"%string, true)
     (outcomes (evaluate p userAge (parseIncome (familyIncome p)) userCgpa
                         now s)).
Proof.
  intros H. rewrite H. unfold outcomes. apply outcome_in_trace.
  split; [simpl; tauto |]. split; [reflexivity |].
  change (satisfies p userAge NaN userCgpa (eligibilityCriteria s)
                    "Family Income")
    with (negb (gt NaN (maxFamilyIncome (eligibilityCriteria s))
                || lt NaN (minFamilyIncome (eligibilityCriteria s)))).
  unfold gt. rewrite lt_NaN_r. reflexivity.
Qed.

Lemma NaN_income_passes_every_band_witness :
  let p := mkProfile (Some (js "Ravi")) None None None None None
                     (Some (js "8.1")) (Some (js "2 to 3 lakh - approx"))
                     true in
  let s := mkScholarship 10 (js "Need Based") None (js "Support Trust")
             (js "30000")
             (mkCriteria (ofZ 0) (ofZ 10) [] [] (ofZ 300000) (ofZ 0)
                         [] [] (ofZ 0) (ofZ 100) [] [])
             None [] (mkContactInfo None None None) true in
  parseIncome (familyIncome p) = NaN
  /\ In ("Family Income"%string, true)
        (outcomes (evaluate p 0 (parseIncome (familyIncome p))
                            (toDouble (81 # 10)) noon_2_nov_2026 s)).
Proof.
  intros p s.
  assert (H : parseIncome (familyIncome p) = NaN) by (vm_compute; reflexivity).
  split; [exact H |].
  exact (@NaN_income_passes_every_band p 0 (toDouble (81 # 10))
           noon_2_nov_2026 s H).
Defined.

(** ** [calculateAge] *)

(** X8. [calculateAge] does not clamp: the age is negative exactly when
    the birth date lies after today on the calendar. *)
Theorem calculateAge_negative_iff_born_after
    (clock : nat -> Date) (w : World) (b : Date) :
  (fst (calculateAge clock (Some b) w) < 0)%Z
  <-> born_after (clock (ticks w)) b.
Proof.
  destruct (calculateAge_value clock w b) as [Hp Hn].
  cbv zeta in Hp, Hn. unfold born_after.
  assert (D : birthday_pending (clock (ticks w)) b
              \/ ~ birthday_pending (clock (ticks w)) b)
    by (unfold birthday_pending; lia).
  destruct D as [D | D].
  - rewrite (Hp D). split; [| lia]. intros H.
    assert (getFullYear (clock (ticks w)) < getFullYear b
            \/ getFullYear (clock (ticks w)) = getFullYear b)%Z
      as [L | L] by lia; [left; exact L | right; split; assumption].
  - rewrite (Hn D). split; [lia |]. intros [L | [_ L]]; [lia | tauto].
Qed.

(** Born tomorrow: the age is -1. *)
Lemma calculateAge_negative_iff_born_after_witness :
  let clock := fun _ : nat => noon_2_nov_2026 in
  let b := mkDate 1793664000000 2026 10 3 in
  born_after (clock 0%nat) b
  /\ fst (calculateAge clock (Some b) fresh) = (-1)%Z.
Proof.
  intros clock b.
  assert (H : born_after (clock 0%nat) b).
  { apply (calculateAge_negative_iff_born_after clock fresh b).
    vm_compute. reflexivity. }
  split; [exact H | reflexivity].
Defined.

(** ** The sort *)

Lemma sort_of_sorted (A : Type) (comparefn : A -> A -> number) (l : list A) :
  StronglySorted (stays comparefn) l -> sort comparefn l = l.
Proof.
  induction 1 as [| a l Hs IH Ha]; [reflexivity |].
  cbn [sort]. rewrite IH. destruct l as [| b l']; [reflexivity |].
  cbn [insert]. inversion Ha as [| ? ? Hab _]; subst.
  unfold stays in Hab. rewrite Hab. reflexivity.
Qed.

(** X9. Sorting is idempotent on results as the evaluator produces them:
    sorting a sorted list of results again changes nothing. *)
Theorem sort_results_idempotent (l : list EligibilityResult) :
  Forall percent_ok l ->
  sort compare_results (sort compare_results l) = sort compare_results l.
Proof.
  intros H. apply sort_of_sorted.
  apply sort_sorted with (P := percent_ok);
    [apply goes_after_asym | apply stays_trans_results | exact H].
Qed.

Lemma sort_results_idempotent_witness :
  sort compare_results (sort compare_results [result_A; result_B; result_C])
  = sort compare_results [result_A; result_B; result_C].
Proof.
  apply sort_results_idempotent. repeat constructor.
  - exists 90%Z. split; [lia | reflexivity].
  - exists 60%Z. split; [lia | reflexivity].
  - exists 80%Z. split; [lia | reflexivity].
Defined.

Lemma ranked_blocks (l : list EligibilityResult) :
  StronglySorted precedes l ->
  l = filter isEligible l ++ filter (fun r => negb (isEligible r)) l.
Proof.
  induction 1 as [| a l Hs IH Ha]; [reflexivity |].
  cbn [filter]. destruct (isEligible a) eqn:E; cbn [negb app].
  - f_equal. exact IH.
  - assert (Hn : Forall (fun r => isEligible r = false) l).
    { rewrite Forall_forall in *. intros r Hr.
      destruct (Ha r Hr) as [H _]. apply H. exact E. }
    assert (Hf : filter isEligible l = []).
    { clear -Hn. induction Hn as [| r l Hr _ IH]; [reflexivity |].
      cbn [filter]. rewrite Hr. exact IH. }
    assert (Hg : filter (fun r => negb (isEligible r)) l = l).
    { clear -Hn. induction Hn as [| r l Hr _ IH]; [reflexivity |].
      cbn [filter]. rewrite Hr. cbn [negb]. f_equal. exact IH. }
    rewrite Hf, Hg. reflexivity.
Qed.

(** ** The handler, further *)

Lemma calculateAge_world (clock : nat -> Date) (dob : option Date) (w : World) :
  queries (snd (calculateAge clock dob w)) = queries w.
Proof.
  destruct dob as [b |]; [| reflexivity].
  unfold calculateAge, bind, newDate.
  destruct ((_ <? 0)%Z || _); reflexivity.
Qed.

Lemma check_eligibility_queries clock users scholarships e u p w :
  complete_request users e u p ->
  queries (snd (check_eligibility clock users scholarships (Some e) w))
  = queries w ++ [UserFindOne e; ScholarshipFindActive].
Proof.
  intros (He & Hu & Hp & Hc).
  destruct e as [| c0 e]; [congruence |].
  unfold check_eligibility. unfold bind at 1. unfold User_findOne at 1.
  rewrite Hu, Hp, Hc. cbn [negb].
  unfold bind at 1.
  pose proof (calculateAge_world clock (dateOfBirth p)
                (mkWorld (ticks w) (queries w ++ [UserFindOne (c0 :: e)])))
    as Hq.
  destruct (calculateAge clock (dateOfBirth p) _) as [userAge w1].
  cbn [snd queries] in Hq.
  unfold bind at 1. unfold Scholarship_find_active at 1.
  unfold bind at 1. rewrite for_each_evaluate. unfold ret.
  cbn [snd queries ticks]. rewrite Hq, <- app_assoc. reflexivity.
Qed.

(** X10. The handler rejects a request without an e-mail with status 400
    before it touches the database, and answers 404 for an e-mail no user
    has, after the one lookup; in neither case is a scholarship fetched or
    the clock read. *)
Theorem check_eligibility_rejections
    (clock : nat -> Date) (users : list User) (scholarships : list Scholarship)
    (w : World) :
  check_eligibility clock users scholarships None w
  = (mkResponse 400 (ErrorBody "Email is required"), w)
  /\ check_eligibility clock users scholarships (Some []) w
     = (mkResponse 400 (ErrorBody "Email is required"), w)
  /\ (forall e, e <> [] ->
        (forall u, In u users -> email u <> e) ->
        check_eligibility clock users scholarships (Some e) w
        = (mkResponse 404 (ErrorBody "User not found"),
           mkWorld (ticks w) (queries w ++ [UserFindOne e]))).
Proof.
  split; [reflexivity |]. split; [reflexivity |].
  intros e He Hnone. destruct e as [| c0 e]; [congruence |].
  unfold check_eligibility, bind, User_findOne.
  assert (Hf : find (fun u => jsstring_eqb (email u) (c0 :: e)) users = None).
  { destruct (find _ users) as [u |] eqn:F; [| reflexivity].
    apply find_some in F. destruct F as [Hin Heq].
    apply jsstring_eqb_eq in Heq. exfalso. exact (Hnone u Hin Heq). }
  rewrite Hf. reflexivity.
Qed.

Lemma check_eligibility_rejections_witness :
  check_eligibility (fun _ => noon_2_nov_2026) [asha true]
                    [expired_scholarship] (Some (js "ravi@example.org")) fresh
  = (mkResponse 404 (ErrorBody "User not found"),
     mkWorld 0 [UserFindOne (js "ravi@example.org")]).
Proof.
  destruct (check_eligibility_rejections (fun _ => noon_2_nov_2026)
              [asha true] [expired_scholarship] fresh) as (_ & _ & H).
  apply H.
  - discriminate.
  - intros u [<- | []]. discriminate.
Defined.

(** X11. For a complete profile the response lists exactly the active
    scholarships: the summaries of the results are a permutation of the
    summaries of the active scholarships, [totalScholarships] is their
    number, [eligibleScholarships] is the number of eligible results (so at
    most the total), and the handler sent two read queries and nothing
    else. *)
Theorem response_lists_the_active_scholarships
    (clock : nat -> Date) (users : list User) (scholarships : list Scholarship)
    (e : JSString) (u : User) (p : Profile) (w : World) :
  complete_request users e u p ->
  let active := filter isActive scholarships in
  exists eligible results snapshot,
    fst (check_eligibility clock users scholarships (Some e) w)
    = mkResponse 200
        (RankedBody true (List.length active) eligible results snapshot)
    /\ Permutation (map summary active) (map scholarship results)
    /\ List.length results = List.length active
    /\ eligible = List.length (filter isEligible results)
    /\ (eligible <= List.length active)%nat
    /\ queries (snd (check_eligibility clock users scholarships (Some e) w))
       = queries w ++ [UserFindOne e; ScholarshipFindActive].
Proof.
  intros Hreq active.
  destruct (check_eligibility_complete clock scholarships w Hreq)
    as (userAge & n & Hresp).
  cbv zeta in Hresp. fold active in Hresp.
  do 3 eexists. split; [exact Hresp |].
  set (rs := loop_results clock p userAge (parseIncome (familyIncome p))
               (or_else (parseFloat (cgpa p)) (ofZ 0)) n active).
  pose proof (sort_perm compare_results rs) as Hperm.
  assert (Hlen : List.length (sort compare_results rs) = List.length active).
  { rewrite <- (Permutation_length Hperm). apply loop_results_length. }
  split.
  - rewrite <- (loop_results_summaries clock p userAge
                  (parseIncome (familyIncome p))
                  (or_else (parseFloat (cgpa p)) (ofZ 0)) n active).
    apply Permutation_map. exact Hperm.
  - split; [exact Hlen |]. split; [reflexivity |]. split.
    + rewrite <- Hlen. clear.
      induction (sort compare_results rs) as [| r l IH]; simpl; [lia |].
      destruct (isEligible r); simpl; lia.
    + apply (check_eligibility_queries clock scholarships w Hreq).
Qed.

(** X12. In the response the eligible results come first: with
    [eligibleScholarships = k], the first [k] results are all eligible and
    the rest are all ineligible. *)
Theorem eligible_results_come_first
    (clock : nat -> Date) (users : list User) (scholarships : list Scholarship)
    (e : JSString) (u : User) (p : Profile) (w : World) :
  complete_request users e u p ->
  exists total k results snapshot,
    fst (check_eligibility clock users scholarships (Some e) w)
    = mkResponse 200 (RankedBody true total k results snapshot)
    /\ Forall (fun r => isEligible r = true) (firstn k results)
    /\ Forall (fun r => isEligible r = false) (skipn k results).
Proof.
  intros Hreq.
  destruct (check_eligibility_complete clock scholarships w Hreq)
    as (userAge & n & Hresp).
  cbv zeta in Hresp. do 4 eexists. split; [exact Hresp |].
  set (rs := loop_results clock p userAge (parseIncome (familyIncome p))
               (or_else (parseFloat (cgpa p)) (ofZ 0)) n
               (filter isActive scholarships)).
  destruct (sort_ranking (loop_results_percent_ok clock p userAge
              (parseIncome (familyIncome p))
              (or_else (parseFloat (cgpa p)) (ofZ 0)) n
              (filter isActive scholarships))) as (_ & Hs & _).
  fold rs in Hs. pose proof (ranked_blocks Hs) as Hb.
  set (out := sort compare_results rs) in *.
  split.
  - rewrite Hb at 2. rewrite firstn_app, Nat.sub_diag, firstn_all.
    cbn [firstn]. rewrite app_nil_r.
    apply Forall_forall. intros r Hr. apply filter_In in Hr. tauto.
  - rewrite Hb at 2. rewrite skipn_app, Nat.sub_diag, skipn_all.
    cbn [skipn app].
    apply Forall_forall. intros r Hr. apply filter_In in Hr.
    destruct Hr as [_ Hr]. apply negb_true_iff. exact Hr.
Qed.

Lemma example_request_complete :
  complete_request [asha true] (js "asha@example.org") (asha true)
                   (asha_profile true).
Proof. repeat split; try reflexivity. discriminate. Qed.

Lemma response_lists_the_active_scholarships_witness :
  exists eligible results snapshot,
    fst (check_eligibility (fun _ => noon_2_nov_2026) [asha true]
           example_scholarships (Some (js "asha@example.org")) fresh)
    = mkResponse 200 (RankedBody true 2 eligible results snapshot)
    /\ Permutation (map summary [expired_scholarship; open_scholarship])
                   (map scholarship results)
    /\ List.length results = 2%nat
    /\ eligible = List.length (filter isEligible results)
    /\ (eligible <= 2)%nat
    /\ queries (snd (check_eligibility (fun _ => noon_2_nov_2026) [asha true]
                       example_scholarships (Some (js "asha@example.org"))
                       fresh))
       = [UserFindOne (js "asha@example.org"); ScholarshipFindActive].
Proof.
  exact (@response_lists_the_active_scholarships
           (fun _ => noon_2_nov_2026) [asha true] example_scholarships
           (js "asha@example.org") (asha true) (asha_profile true) fresh
           example_request_complete).
Defined.

Lemma eligible_results_come_first_witness :
  exists total k results snapshot,
    fst (check_eligibility (fun _ => noon_2_nov_2026) [asha true]
           example_scholarships (Some (js "asha@example.org")) fresh)
    = mkResponse 200 (RankedBody true total k results snapshot)
    /\ Forall (fun r => isEligible r = true) (firstn k results)
    /\ Forall (fun r => isEligible r = false) (skipn k results).
Proof.
  exact (@eligible_results_come_first
           (fun _ => noon_2_nov_2026) [asha true] example_scholarships
           (js "asha@example.org") (asha true) (asha_profile true) fresh
           example_request_complete).
Defined.

(** The response for the small collection: the open scholarship first,
    the expired one second, the inactive one absent. *)
Example example_response_order :
  match body (fst (check_eligibility (fun _ => noon_2_nov_2026) [asha true]
                     example_scholarships (Some (js "asha@example.org"))
                     fresh)) with
  | RankedBody _ total eligible results _ =>
      (total, eligible,
       map (fun r => (sum_id (scholarship r), isEligible r,
                      deadlineStatus r)) results)
      = (2%nat, 1%nat, [(8%N, true, "Active"%string);
                        (7%N, false, "Expired"%string)])
  | _ => False
  end.
Proof. vm_compute. reflexivity. Qed.

(** ** Profile completion *)

Lemma skip_space_nil_iff (s : JSString) :
  skip_space s = [] <-> ~ has_content s.
Proof.
  unfold has_content. induction s as [| c s IH]; simpl.
  - split; [intros _ H; inversion H | reflexivity].
  - destruct (is_space c) eqn:E.
    + rewrite IH. split.
      * intros H H'. inversion H'; subst; [congruence | tauto].
      * intros H H'. apply H. constructor 2. exact H'.
    + split; [discriminate |]. intros H. exfalso. apply H.
      constructor 1. exact E.
Qed.

Lemma has_content_rev (s : JSString) : has_content (rev s) <-> has_content s.
Proof.
  unfold has_content. rewrite !Exists_exists. split.
  - intros (c & Hin & H). exists c. split; [apply in_rev; exact Hin | exact H].
  - intros (c & Hin & H). exists c.
    split; [apply in_rev; rewrite rev_involutive; exact Hin | exact H].
Qed.

Lemma has_content_skip_space (s : JSString) :
  has_content (skip_space s) <-> has_content s.
Proof.
  unfold has_content. induction s as [| c s IH]; simpl; [reflexivity |].
  destruct (is_space c) eqn:E; [| reflexivity].
  rewrite IH. split.
  - intros H. constructor 2. exact H.
  - intros H. inversion H; subst; [congruence | assumption].
Qed.

Lemma trim_nil_iff (s : JSString) : trim s = [] <-> ~ has_content s.
Proof.
  unfold trim. split.
  - intros H. apply (f_equal (@rev N)) in H. rewrite rev_involutive in H.
    simpl in H. apply skip_space_nil_iff in H.
    rewrite has_content_rev, has_content_skip_space in H. exact H.
  - intros H.
    assert (E : skip_space (rev (skip_space s)) = []).
    { apply skip_space_nil_iff.
      rewrite has_content_rev, has_content_skip_space. exact H. }
    rewrite E. reflexivity.
Qed.

(** X13. A field of the profile form counts as filled exactly when it is
    present and holds something other than white space. *)
Theorem is_filled_iff_has_content (field : option JSString) :
  is_filled field = true <-> exists s, field = Some s /\ has_content s.
Proof.
  destruct field as [[| c s] |]; simpl.
  - split; [discriminate |]. intros (s & E & H). injection E as <-.
    inversion H.
  - rewrite negb_true_iff, <- not_true_iff_false, jsstring_eqb_eq.
    fold (trim (c :: s)). rewrite trim_nil_iff. split.
    + intros H. exists (c :: s). split; [reflexivity |].
      unfold has_content in *.
      assert (dec : forall x : N, {is_space x = false} + {is_space x <> false})
        by (intros x; destruct (is_space x); [right | left]; congruence).
      destruct (Exists_dec (fun c => is_space c = false) (c :: s) dec)
        as [D | D]; [exact D | tauto].
    + intros (s' & E & H) Hn. injection E as <-. exact (Hn H).
  - split; [discriminate |]. intros (s & E & _). discriminate.
Qed.

Lemma completion_by_count (k : nat) :
  (k <= 12)%nat ->
  round (mul (div (ofZ (Z.of_nat k)) (ofZ 12)) (ofZ 100))
  = Fin (inject_Z (nearest_percent k 12))
  /\ (0 <= nearest_percent k 12 <= 100)%Z
  /\ geq (round (mul (div (ofZ (Z.of_nat k)) (ofZ 12)) (ofZ 100))) (ofZ 70)
     = (9 <=? k)%nat.
Proof.
  intros H.
  assert (k = 0 \/ k = 1 \/ k = 2 \/ k = 3 \/ k = 4 \/ k = 5 \/ k = 6
          \/ k = 7 \/ k = 8 \/ k = 9 \/ k = 10 \/ k = 11 \/ k = 12)%nat
    as [-> | [-> | [-> | [-> | [-> | [-> | [-> | [-> | [-> | [-> | [-> |
        [-> | ->]]]]]]]]]]]] by lia;
  (split; [vm_compute; reflexivity |
           split; [vm_compute; split; discriminate
                  | vm_compute; reflexivity]]).
Qed.

Lemma filledFields_le (f : ProfileForm) : (filledFields f <= 12)%nat.
Proof.
  unfold filledFields.
  change 12%nat with (List.length (requiredFields_of f)).
  induction (requiredFields_of f) as [| v l IH]; simpl; [lia |].
  destruct (is_filled v); simpl; lia.
Qed.

(** X14. The completion percentage is round(100 × filled / 12), an integer
    from 0 to 100, and the profile is marked complete exactly when at
    least nine of the twelve fields are filled (eight give 67, nine give
    75). *)
Theorem profile_complete_iff_nine_fields (f : ProfileForm) :
  completionPercentage f
  = Fin (inject_Z (nearest_percent (filledFields f) 12))
  /\ (0 <= nearest_percent (filledFields f) 12 <= 100)%Z
  /\ (form_isProfileComplete f = true <-> (9 <= filledFields f)%nat).
Proof.
  destruct (completion_by_count (filledFields_le f)) as (Hv & Hb & Hg).
  unfold form_isProfileComplete, completionPercentage.
  change (Z.of_nat (List.length (requiredFields_of f))) with 12%Z.
  split; [exact Hv |]. split; [exact Hb |].
  rewrite Hg. apply Nat.leb_le.
Qed.

(** Nine contentful fields, a blank one, an empty one and an absent one:
    complete, at 75. *)
Lemma profile_complete_iff_nine_fields_witness :
  filledFields nine_field_form = 9%nat
  /\ completionPercentage nine_field_form = Fin 75
  /\ form_isProfileComplete nine_field_form = true.
Proof.
  assert (H : filledFields nine_field_form = 9%nat) by reflexivity.
  destruct (profile_complete_iff_nine_fields nine_field_form)
    as (Hv & _ & Hc).
  split; [exact H |]. split.
  - rewrite Hv, H. reflexivity.
  - apply Hc. rewrite H. lia.
Defined.

Lemma is_filled_iff_has_content_witness :
  is_filled (Some (js "   ")) = false /\ is_filled (Some (js " x ")) = true.
Proof.
  split.
  - apply not_true_iff_false. intros H.
    apply is_filled_iff_has_content in H.
    destruct H as (s & E & Hc). injection E as <-.
    unfold has_content in Hc. rewrite Exists_exists in Hc.
    destruct Hc as (c & Hin & Hs).
    simpl in Hin. destruct Hin as [<- | [<- | [<- | []]]]; discriminate.
  - apply is_filled_iff_has_content. exists (js " x ").
    split; [reflexivity |]. constructor 2. constructor 1. reflexivity.
Defined.

(** ** Registration *)

Lemma given_some (v : option JSString) (s : JSString) :
  given v = Some s <-> v = Some s /\ s <> [].
Proof.
  destruct v as [[| c t] |]; simpl; split; intros H.
  - discriminate.
  - destruct H as [E Hn]. injection E as <-. congruence.
  - injection H as <-. split; [reflexivity | discriminate].
  - destruct H as [E _]. exact E.
  - discriminate.
  - destruct H as [E _]. discriminate.
Qed.

Lemma find_account_none (e : JSString) (accounts : list Account) :
  find (fun a => jsstring_eqb (email (account_user a)) e) accounts = None
  <-> ~ taken e accounts.
Proof.
  unfold taken, email_of. split.
  - intros H (a & Hin & E).
    pose proof (find_none _ _ H a Hin) as Hf. simpl in Hf.
    rewrite <- E in Hf.
    assert (T : jsstring_eqb (email (account_user a))
                             (email (account_user a)) = true)
      by (apply jsstring_eqb_eq; reflexivity).
    congruence.
  - intros H. destruct (find _ accounts) as [a |] eqn:F; [| reflexivity].
    apply find_some in F. destruct F as [Hin E].
    apply jsstring_eqb_eq in E. exfalso. apply H. exists a. auto.
Qed.

(** X15. Registration succeeds (status 201) exactly when all four fields
    are given and the e-mail is not taken.  It then appends one account,
    with the given name, e-mail and mobile, the hashed password in place
    of the given one, the role "user" and the default, incomplete profile.
    In every other case the collection is unchanged. *)
Theorem register_outcome
    (accounts : list Account) (hashedPassword : JSString) (b : RegisterBody) :
  let answer := fst (register accounts hashedPassword b) in
  let accounts' := snd (register accounts hashedPassword b) in
  (answer_status answer = 201%Z
   <-> all_given b
       /\ forall e, given (reg_email b) = Some e -> ~ taken e accounts)
  /\ (answer_status answer = 201%Z ->
      exists n e m,
        reg_name b = Some n /\ reg_email b = Some e /\ reg_mobile b = Some m
        /\ accounts'
           = accounts ++ [mkAccount (mkUser n e (Some new_profile)) m
                                    hashedPassword (js "user")])
  /\ (answer_status answer <> 201%Z -> accounts' = accounts).
Proof.
  intros answer accounts'. subst answer accounts'.
  unfold register, all_given.
  destruct (given (reg_name b)) as [n |] eqn:En;
  destruct (given (reg_email b)) as [e |] eqn:Ee;
  destruct (given (reg_mobile b)) as [m |] eqn:Em;
  destruct (given (reg_password b)) as [pw |] eqn:Ep;
  try (cbn [fst snd answer_status];
       split; [split; [discriminate | intros [(? & ? & ? & ?) _]; congruence]
              | split; [discriminate | reflexivity]]).
  destruct (find _ accounts) as [a |] eqn:F; cbn [fst snd answer_status].
  - split; [| split; [discriminate | reflexivity]].
    split; [discriminate |].
    intros [_ H]. exfalso. apply (H e eq_refl).
    apply find_some in F. destruct F as [Hin E].
    apply jsstring_eqb_eq in E. exists a. auto.
  - split; [| split].
    + split; [| reflexivity]. intros _.
      split; [repeat split; discriminate |].
      intros e' E. injection E as <-. apply find_account_none. exact F.
    + intros _. exists n, e, m.
      apply given_some in En, Ee, Em.
      destruct En as [-> _], Ee as [-> _], Em as [-> _].
      repeat split.
    + congruence.
Qed.

Lemma register_outcome_witness :
  all_given ravi_registration
  /\ answer_status (fst (register [asha_account] (js "$2a$10$other")
                                  ravi_registration)) = 201%Z
  /\ List.length (snd (register [asha_account] (js "$2a$10$other")
                                ravi_registration)) = 2%nat.
Proof.
  assert (Hg : all_given ravi_registration)
    by (repeat split; discriminate).
  destruct (register_outcome [asha_account] (js "$2a$10$other")
              ravi_registration) as (Hiff & Hadd & _).
  cbv zeta in Hiff, Hadd.
  assert (Hs : answer_status (fst (register [asha_account]
                 (js "$2a$10$other") ravi_registration)) = 201%Z).
  { apply Hiff. split; [exact Hg |].
    intros e E. injection E as <-.
    intros (a & [<- | []] & Ha). discriminate. }
  split; [exact Hg |]. split; [exact Hs |].
  destruct (Hadd Hs) as (n & e & m & _ & _ & _ & ->). reflexivity.
Defined.

(** X16. Registration keeps the e-mails of the collection pairwise
    distinct. *)
Theorem register_keeps_emails_distinct
    (accounts : list Account) (hashedPassword : JSString) (b : RegisterBody) :
  NoDup (map email_of accounts) ->
  NoDup (map email_of (snd (register accounts hashedPassword b))).
Proof.
  intros Hnd. unfold register.
  destruct (given (reg_name b)) as [n |];
  destruct (given (reg_email b)) as [e |];
  destruct (given (reg_mobile b)) as [m |];
  destruct (given (reg_password b)) as [pw |];
  try exact Hnd.
  destruct (find _ accounts) as [a |] eqn:F; [exact Hnd |].
  cbn [snd]. rewrite map_app. cbn [map email_of account_user email].
  apply Permutation_NoDup with (l := e :: map email_of accounts).
  - apply Permutation_cons_append.
  - constructor; [| exact Hnd].
    intros Hin. apply in_map_iff in Hin. destruct Hin as (a & E & Hin).
    apply find_account_none in F. apply F. exists a. auto.
Qed.

Lemma register_keeps_emails_distinct_witness :
  NoDup (map email_of (snd (register [asha_account] (js "$2a$10$other")
                                     ravi_registration))).
Proof.
  apply register_keeps_emails_distinct.
  constructor; [intros [] | constructor].
Defined.

(** X17. A user who has just registered and asks for the eligibility
    check gets the "complete your profile" answer: registration leaves
    [isProfileComplete] false. *)
Theorem registered_user_is_sent_to_profile
    (clock : nat -> Date) (scholarships : list Scholarship)
    (accounts : list Account) (hashedPassword : JSString) (b : RegisterBody)
    (w : World) :
  answer_status (fst (register accounts hashedPassword b)) = 201%Z ->
  fst (check_eligibility clock
         (users_of (snd (register accounts hashedPassword b)))
         scholarships (reg_email b) w)
  = incomplete_response.
Proof.
  unfold register.
  destruct (given (reg_name b)) as [n |];
  destruct (given (reg_email b)) as [e |] eqn:Ee;
  destruct (given (reg_mobile b)) as [m |];
  destruct (given (reg_password b)) as [pw |];
  try (cbn [fst answer_status]; discriminate).
  destruct (find _ accounts) as [a |] eqn:F;
    [cbn [fst answer_status]; discriminate |].
  intros _. cbn [snd].
  apply find_account_none in F. rename F into Hfree.
  apply given_some in Ee. destruct Ee as [-> He].
  destruct e as [| c0 e]; [congruence |].
  unfold check_eligibility, bind, User_findOne, users_of.
  rewrite map_app. cbn [map account_user].
  assert (Hf : find (fun u' => jsstring_eqb (email u') (c0 :: e))
                    (map account_user accounts
                     ++ [mkUser n (c0 :: e) (Some new_profile)])
               = Some (mkUser n (c0 :: e) (Some new_profile))).
  { clear -Hfree. unfold taken, email_of in Hfree.
    induction accounts as [| a l IH]; simpl.
    - assert (T : jsstring_eqb (c0 :: e) (c0 :: e) = true)
        by (apply jsstring_eqb_eq; reflexivity).
      simpl in T. rewrite T. reflexivity.
    - destruct (jsstring_eqb (email (account_user a)) (c0 :: e)) eqn:E.
      + exfalso. apply Hfree. exists a. split; [left; reflexivity |].
        apply jsstring_eqb_eq. exact E.
      + apply IH. intros (a' & Hin & Ea). apply Hfree.
        exists a'. split; [right; exact Hin | exact Ea]. }
  rewrite Hf. reflexivity.
Qed.

Lemma registered_user_is_sent_to_profile_witness :
  fst (check_eligibility (fun _ => noon_2_nov_2026)
         (users_of (snd (register [asha_account] (js "$2a$10$other")
                                  ravi_registration)))
         example_scholarships (Some (js "ravi@example.org")) fresh)
  = incomplete_response.
Proof.
  apply (@registered_user_is_sent_to_profile (fun _ => noon_2_nov_2026)
           example_scholarships [asha_account] (js "$2a$10$other")
           ravi_registration fresh).
  reflexivity.
Defined.

(** ** Feedback *)

Lemma missingQuestions_nil (r : Responses) :
  missingQuestions r = [] <-> all_answered r.
Proof.
  unfold missingQuestions, all_answered. cbn [filter snd].
  destruct (given (q1 r)), (given (q2 r)), (given (q3 r)), (given (q4 r));
    cbn [map fst]; split; intros H;
    try discriminate H; try reflexivity;
    try (repeat split; discriminate);
    destruct H as (H1 & H2 & H3 & H4); congruence.
Qed.

(** X18. A feedback is stored exactly when the e-mail is given, the
    responses are present with all four questions answered, and a user has
    that e-mail.  The stored document then carries the four answers as
    submitted and the suggestions, or the empty string for none.  In every
    other case nothing is stored. *)
Theorem feedback_stored_iff_valid
    (users : list User) (stored : list Feedback)
    (req_email : option JSString) (responses : option Responses) :
  let status := fst (fst (submit_feedback users stored req_email responses)) in
  let stored' := snd (submit_feedback users stored req_email responses) in
  (status = 200%Z
   <-> exists e r,
         given req_email = Some e /\ responses = Some r /\ all_answered r
         /\ exists u, In u users /\ email u = e)
  /\ (status = 200%Z ->
      exists e r a1 a2 a3 a4,
        req_email = Some e /\ responses = Some r
        /\ q1 r = Some a1 /\ q2 r = Some a2 /\ q3 r = Some a3
        /\ q4 r = Some a4
        /\ stored'
           = stored ++ [mkFeedback e a1 a2 a3 a4 (or_empty (suggestions r))])
  /\ (status <> 200%Z -> stored' = stored).
Proof.
  intros status stored'. subst status stored'. unfold submit_feedback.
  destruct (given req_email) as [e |] eqn:Ee.
  2: { cbn [fst snd].
       split; [| split; [discriminate | reflexivity]].
       split; [discriminate |]. intros (e & r & E & _). discriminate. }
  destruct responses as [r |].
  2: { cbn [fst snd].
       split; [| split; [discriminate | reflexivity]].
       split; [discriminate |]. intros (e' & r & _ & E & _). discriminate. }
  destruct (missingQuestions r) as [| q qs] eqn:Em.
  2: { cbn [fst snd].
       split; [| split; [discriminate | reflexivity]].
       split; [discriminate |]. intros (e' & r' & _ & E & Ha & _).
       injection E as <-. apply missingQuestions_nil in Ha. congruence. }
  apply missingQuestions_nil in Em.
  destruct (find _ users) as [u |] eqn:F; cbn [fst snd].
  - split; [| split].
    + split; [| reflexivity]. intros _. exists e, r.
      split; [reflexivity |]. split; [reflexivity |]. split; [exact Em |].
      apply find_some in F. destruct F as [Hin E].
      apply jsstring_eqb_eq in E. exists u. auto.
    + intros _. apply given_some in Ee. destruct Ee as [-> _].
      destruct Em as (H1 & H2 & H3 & H4).
      destruct (q1 r) as [[| c1 a1] |] eqn:E1; try (exfalso; apply H1; reflexivity).
      destruct (q2 r) as [[| c2 a2] |] eqn:E2; try (exfalso; apply H2; reflexivity).
      destruct (q3 r) as [[| c3 a3] |] eqn:E3; try (exfalso; apply H3; reflexivity).
      destruct (q4 r) as [[| c4 a4] |] eqn:E4; try (exfalso; apply H4; reflexivity).
      exists e, r, (c1 :: a1), (c2 :: a2), (c3 :: a3), (c4 :: a4).
      rewrite E1, E2, E3, E4. repeat split.
    + congruence.
  - split; [| split; [discriminate | reflexivity]].
    split; [discriminate |].
    intros (e' & r' & E & _ & _ & u & Hin & Eu). injection E as <-.
    pose proof (find_none _ _ F u Hin) as Hf. simpl in Hf.
    assert (T : jsstring_eqb (email u) e = true)
      by (apply jsstring_eqb_eq; exact Eu).
    congruence.
Qed.

Lemma feedback_stored_iff_valid_witness :
  let r := mkResponses (Some (js "Good")) (Some (js "Easy"))
                       (Some (js "Satisfied")) (Some (js "Likely")) None in
  fst (fst (submit_feedback [asha true] [] (Some (js "asha@example.org"))
                            (Some r))) = 200%Z
  /\ snd (submit_feedback [asha true] [] (Some (js "asha@example.org"))
                          (Some r))
     = [mkFeedback (js "asha@example.org") (js "Good") (js "Easy")
                   (js "Satisfied") (js "Likely") []].
Proof.
  intros r.
  destruct (feedback_stored_iff_valid [asha true] []
              (Some (js "asha@example.org")) (Some r)) as (Hiff & Hst & _).
  cbv zeta in Hiff, Hst.
  assert (Hs : fst (fst (submit_feedback [asha true] []
                           (Some (js "asha@example.org")) (Some r)))
               = 200%Z).
  { apply Hiff. exists (js "asha@example.org"), r.
    split; [reflexivity |]. split; [reflexivity |].
    split; [repeat split; discriminate |].
    exists (asha true). split; [left |]; reflexivity. }
  split; [exact Hs |].
  destruct (Hst Hs) as (e & r' & a1 & a2 & a3 & a4 & Ee & Er & E1 & E2 & E3
                        & E4 & ->).
  injection Ee as <-. injection Er as <-.
  injection E1 as <-. injection E2 as <-. injection E3 as <-.
  injection E4 as <-. reflexivity.
Defined.

(** The answer to an incomplete feedback names the unanswered questions,
    in the order q1 to q4. *)
Example feedback_names_missing_questions :
  fst (submit_feedback [asha true] [] (Some (js "asha@example.org"))
         (Some (mkResponses (Some (js "Good")) None (Some []) (Some (js "Likely"))
                            None)))
  = (400%Z, FeedbackMissing ["q2"; "q3"]%string).
Proof. vm_compute. reflexivity. Qed.

(** ** The CGPA of the profile *)

(** X19. The CGPA used for the checks is never [NaN]: an absent or
    unparsable [cgpa] counts as 0, and so fails the CGPA check of every
    scholarship whose minimum is a positive number, which makes the result
    ineligible. *)
Theorem unparsable_cgpa_counts_as_zero
    (p : Profile) (userAge : Z) (userIncome : number) (now : Date)
    (s : Scholarship) (m : Q) :
  let userCgpa := or_else (parseFloat (cgpa p)) (ofZ 0) in
  let r := evaluate p userAge userIncome userCgpa now s in
  userCgpa <> NaN
  /\ (parseFloat (cgpa p) = NaN ->
      userCgpa = Fin 0
      /\ (minCgpa (eligibilityCriteria s) = Fin m -> (0 < m)%Q ->
          In ("CGPA"%string, false) (outcomes r) /\ isEligible r = false)).
Proof.
  intros userCgpa r. split; [apply or_else_zero_not_NaN |].
  intros Hnan.
  assert (Hz : userCgpa = Fin 0)
    by (subst userCgpa; rewrite Hnan; reflexivity).
  split; [exact Hz |]. intros Hm Hpos.
  assert (Hin : In ("CGPA"%string, false) (outcomes r)).
  { subst r. unfold outcomes. apply outcome_in_trace.
    split; [simpl; tauto |]. split; [reflexivity |].
    change (satisfies p userAge userIncome userCgpa (eligibilityCriteria s)
                      "CGPA")
      with (negb (lt userCgpa (minCgpa (eligibilityCriteria s))
                  || gt userCgpa (maxCgpa (eligibilityCriteria s)))).
    rewrite Hz, Hm. unfold lt at 1.
    assert (Hle : Qle_bool m 0 = false).
    { apply not_true_iff_false. rewrite Qle_bool_iff.
      apply Qlt_not_le. exact Hpos. }
    rewrite Hle. reflexivity. }
  split; [exact Hin |].
  apply not_true_iff_false. intros He.
  apply (eligible_iff_passed_and_active p userAge userIncome userCgpa now s)
    in He.
  destruct He as [Hall _]. fold r in Hall.
  unfold outcomes in Hin. apply in_map_iff in Hin.
  destruct Hin as (ch & E & Hch). rewrite Forall_forall in Hall.
  specialize (Hall ch Hch). unfold outcome in E. injection E as _ E.
  congruence.
Qed.

Lemma unparsable_cgpa_counts_as_zero_witness :
  let p := mkProfile (Some (js "Ravi")) None None None None None
                     (Some (js "eight point one")) (Some (js "200000"))
                     true in
  let r := evaluate p 19 (ofZ 200000)
                    (or_else (parseFloat (cgpa p)) (ofZ 0))
                    noon_2_nov_2026 open_scholarship in
  In ("CGPA"%string, false) (outcomes r) /\ isEligible r = false.
Proof.
  intros p r.
  destruct (@unparsable_cgpa_counts_as_zero p 19 (ofZ 200000)
              noon_2_nov_2026 open_scholarship 6) as [_ H].
  destruct (H eq_refl) as [_ H'].
  apply H'; [vm_compute; reflexivity | reflexivity].
Defined.
